(** * nmcli: reconciliation of NetworkManager connection profiles

    A shallow embedding of [lib/ansible/modules/net_tools/nmcli.py]: the
    [Nmcli] class (command synthesizers, two-phase create, existence check)
    and the [main] reconciler, followed by the properties of the design
    document that concern them.

    Python values are modelled as follows.
    - A parameter of type ['str'] with default [None] is an [option string];
      ['bool'] is an [option bool]; the ['list'] parameter [dns4] is an
      [option (list string)].
    - A command list ([cmd]) is a [list token], a token being a Python [str]
      or the value [None] (the code appends some attributes unguarded).
    - The value handed to [execute_command] is a [command]: a list of tokens
      or, on some paths, the tuple a previous call returned.
    - [module.run_command] and the D-Bus settings service are parameters of
      the model: a transition on an abstract [World] and a read of it.
    - [module.fail_json], [module.exit_json] and an uncaught exception end
      the run; the monad [M] threads the world and the log of Executor calls
      and stops at a report. *)

From Stdlib Require Import String List ZArith Bool Lia.
Import ListNotations.
Local Open Scope string_scope.
Local Open Scope list_scope.

(** ** Data model *)

(** A Python value appended to a command list: a [str], or [None]. *)
Definition token := option string.

(** [module.params] after the framework's type coercion (argument_spec of
    [main]): [dns4] is a list, [dns6] a plain string. *)
Record Params := {
  param_autoconnect : option bool;
  param_state : string;
  param_conn_name : option string;
  param_master : option string;
  param_ifname : option string;
  param_type : option string;
  param_ip4 : option string;
  param_gw4 : option string;
  param_dns4 : option (list string);
  param_ip6 : option string;
  param_gw6 : option string;
  param_dns6 : option string;
  param_mode : option string;
  param_miimon : option string;
  param_downdelay : option string;
  param_updelay : option string;
  param_arp_interval : option string;
  param_arp_ip_target : option string;
  param_primary : option string;
  param_mtu : option string;
  param_mac : option string;
  param_stp : option bool;
  param_priority : option string;
  param_slavepriority : option string;
  param_forwarddelay : option string;
  param_hellotime : option string;
  param_maxage : option string;
  param_ageingtime : option string;
  param_vlanid : option string;
  param_vlandev : option string;
  param_flags : option string;
  param_ingress : option string;
  param_egress : option string
}.

(** The [AnsibleModule] object as far as the code reads it: the parameters,
    the check-mode flag and the path [get_bin_path('nmcli', True)] found. *)
Record AnsibleModule := {
  params : Params;
  check_mode : bool;
  get_bin_path : string
}.

(** The attributes of an [Nmcli] instance. *)
Record Nmcli := {
  module : AnsibleModule;
  state : string;
  autoconnect : option bool;
  conn_name : option string;
  master : option string;
  ifname : option string;
  type : option string;
  ip4 : option string;
  gw4 : option string;
  dns4 : option string;
  ip6 : option string;
  gw6 : option string;
  dns6 : option string;
  mtu : option string;
  stp : option bool;
  priority : option string;
  mode : option string;
  miimon : option string;
  primary : option string;
  downdelay : option string;
  updelay : option string;
  arp_interval : option string;
  arp_ip_target : option string;
  slavepriority : option string;
  forwarddelay : option string;
  hellotime : option string;
  maxage : option string;
  ageingtime : option string;
  mac : option string;
  vlanid : option string;
  vlandev : option string;
  flags : option string;
  ingress : option string;
  egress : option string;
  nmcli_bin : string
}.

(** [' '.join(l)] *)
Definition join (l : list string) : string := String.concat " " l.

(** Truth value of [module.params.get('dns4')]: a non-empty list. *)
Definition truthy_list {A} (l : option (list A)) : bool :=
  match l with
  | Some (_ :: _) => true
  | _ => false
  end.

(** [Nmcli.__init__] *)
Definition Nmcli_init (m : AnsibleModule) : Nmcli :=
  let p := params m in
  {| module := m;
     state := param_state p;
     autoconnect := param_autoconnect p;
     conn_name := param_conn_name p;
     master := param_master p;
     ifname := param_ifname p;
     type := param_type p;
     ip4 := param_ip4 p;
     gw4 := param_gw4 p;
     dns4 := if truthy_list (param_dns4 p)
             then option_map join (param_dns4 p) else None;
     ip6 := param_ip6 p;
     gw6 := param_gw6 p;
     dns6 := param_dns6 p;
     mtu := param_mtu p;
     stp := param_stp p;
     priority := param_priority p;
     mode := param_mode p;
     miimon := param_miimon p;
     primary := param_primary p;
     downdelay := param_downdelay p;
     updelay := param_updelay p;
     arp_interval := param_arp_interval p;
     arp_ip_target := param_arp_ip_target p;
     slavepriority := param_slavepriority p;
     forwarddelay := param_forwarddelay p;
     hellotime := param_hellotime p;
     maxage := param_maxage p;
     ageingtime := param_ageingtime p;
     mac := param_mac p;
     vlanid := param_vlanid p;
     vlandev := param_vlandev p;
     flags := param_flags p;
     ingress := param_ingress p;
     egress := param_egress p;
     nmcli_bin := get_bin_path m |}.

(** ** Command synthesizers *)

Definition bool_to_string (boolean : bool) : string :=
  if boolean then "yes" else "no".

(** [if guard is not None: cmd.append(..); cmd.append(..)]: the tokens the
    guarded block appends. *)
Definition when_set {A} (guard : option A) (appended : list token) : list token :=
  match guard with
  | Some _ => appended
  | None => []
  end.

(** [self.type == name] (false when [self.type] is [None]). *)
Definition type_is (self : Nmcli) (name : string) : bool :=
  match type self with
  | Some t => String.eqb t name
  | None => false
  end.

Section Synthesizers.
Variable self : Nmcli.

(** The value after ['con-name']: the name, else the interface name. *)
Definition con_name_value : list token :=
  match conn_name self with
  | Some n => [Some n]
  | None => when_set (ifname self) [ifname self]
  end.

(** The value after ['ifname']: the interface name, else the name. *)
Definition ifname_value : list token :=
  match ifname self with
  | Some i => [Some i]
  | None => when_set (conn_name self) [conn_name self]
  end.

Definition autoconnect_pair : list token :=
  match autoconnect self with
  | Some b => [Some "autoconnect"; Some (bool_to_string b)]
  | None => []
  end.

Definition create_connection_team : list token :=
  [Some (nmcli_bin self); Some "con"; Some "add"; Some "type"; Some "team"; Some "con-name"]
  ++ con_name_value
  ++ [Some "ifname"]
  ++ ifname_value
  ++ when_set (ip4 self) [Some "ip4"; ip4 self]
  ++ when_set (gw4 self) [Some "gw4"; gw4 self]
  ++ when_set (ip6 self) [Some "ip6"; ip6 self]
  ++ when_set (gw6 self) [Some "gw6"; gw6 self]
  ++ autoconnect_pair.

Definition modify_connection_team : list token :=
  [Some (nmcli_bin self); Some "con"; Some "mod"; conn_name self]
  ++ when_set (ip4 self) [Some "ipv4.address"; ip4 self]
  ++ when_set (gw4 self) [Some "ipv4.gateway"; gw4 self]
  ++ when_set (dns4 self) [Some "ipv4.dns"; dns4 self]
  ++ when_set (ip6 self) [Some "ipv6.address"; ip6 self]
  ++ when_set (gw6 self) [Some "ipv6.gateway"; gw6 self]
  ++ when_set (dns6 self) [Some "ipv6.dns"; dns6 self]
  ++ autoconnect_pair.

Definition create_connection_team_slave : list token :=
  [Some (nmcli_bin self); Some "connection"; Some "add"; Some "type"; type self; Some "con-name"]
  ++ con_name_value
  ++ [Some "ifname"]
  ++ ifname_value
  ++ [Some "master"]
  ++ when_set (conn_name self) [master self].

Definition modify_connection_team_slave : list token :=
  [Some (nmcli_bin self); Some "con"; Some "mod"; conn_name self;
   Some "connection.master"; master self]
  ++ when_set (mtu self) [Some "802-3-ethernet.mtu"; mtu self].

Definition create_connection_bond : list token :=
  [Some (nmcli_bin self); Some "con"; Some "add"; Some "type"; Some "bond"; Some "con-name"]
  ++ con_name_value
  ++ [Some "ifname"]
  ++ ifname_value
  ++ when_set (mode self) [Some "mode"; mode self]
  ++ when_set (ip4 self) [Some "ip4"; ip4 self]
  ++ when_set (gw4 self) [Some "gw4"; gw4 self]
  ++ when_set (ip6 self) [Some "ip6"; ip6 self]
  ++ when_set (gw6 self) [Some "gw6"; gw6 self]
  ++ autoconnect_pair
  ++ when_set (miimon self) [Some "miimon"; miimon self]
  ++ when_set (downdelay self) [Some "downdelay"; downdelay self]
  ++ when_set (downdelay self) [Some "updelay"; updelay self]
  ++ when_set (downdelay self) [Some "arp-interval"; arp_interval self]
  ++ when_set (downdelay self) [Some "arp-ip-target"; arp_ip_target self]
  ++ when_set (primary self) [Some "primary"; primary self].

Definition modify_connection_bond : list token :=
  [Some (nmcli_bin self); Some "con"; Some "mod"; conn_name self]
  ++ when_set (ip4 self) [Some "ipv4.address"; ip4 self]
  ++ when_set (gw4 self) [Some "ipv4.gateway"; gw4 self]
  ++ when_set (dns4 self) [Some "ipv4.dns"; dns4 self]
  ++ when_set (ip6 self) [Some "ipv6.address"; ip6 self]
  ++ when_set (gw6 self) [Some "ipv6.gateway"; gw6 self]
  ++ when_set (dns6 self) [Some "ipv6.dns"; dns6 self]
  ++ autoconnect_pair.

Definition create_connection_bond_slave : list token :=
  [Some (nmcli_bin self); Some "connection"; Some "add"; Some "type"; Some "bond-slave";
   Some "con-name"]
  ++ con_name_value
  ++ [Some "ifname"]
  ++ ifname_value
  ++ [Some "master"]
  ++ when_set (conn_name self) [master self].

Definition modify_connection_bond_slave : list token :=
  [Some (nmcli_bin self); Some "con"; Some "mod"; conn_name self;
   Some "connection.master"; master self].

Definition create_connection_ethernet (conn_type : string) : list token :=
  [Some (nmcli_bin self); Some "con"; Some "add"; Some "type"]
  ++ (if String.eqb conn_type "ethernet" then [Some "ethernet"]
      else if String.eqb conn_type "generic" then [Some "generic"]
      else [])
  ++ [Some "con-name"]
  ++ con_name_value
  ++ [Some "ifname"]
  ++ ifname_value
  ++ when_set (ip4 self) [Some "ip4"; ip4 self]
  ++ when_set (gw4 self) [Some "gw4"; gw4 self]
  ++ when_set (ip6 self) [Some "ip6"; ip6 self]
  ++ when_set (gw6 self) [Some "gw6"; gw6 self]
  ++ autoconnect_pair.

Definition modify_connection_ethernet (conn_type : string) : list token :=
  [Some (nmcli_bin self); Some "con"; Some "mod"; conn_name self]
  ++ when_set (ip4 self) [Some "ipv4.address"; ip4 self]
  ++ when_set (gw4 self) [Some "ipv4.gateway"; gw4 self]
  ++ when_set (dns4 self) [Some "ipv4.dns"; dns4 self]
  ++ when_set (ip6 self) [Some "ipv6.address"; ip6 self]
  ++ when_set (gw6 self) [Some "ipv6.gateway"; gw6 self]
  ++ when_set (dns6 self) [Some "ipv6.dns"; dns6 self]
  ++ (if String.eqb conn_type "ethernet"
      then when_set (mtu self) [Some "802-3-ethernet.mtu"; mtu self]
      else [])
  ++ autoconnect_pair.

Definition create_connection_bridge : list token := [Some (nmcli_bin self)].
Definition modify_connection_bridge : list token := [Some (nmcli_bin self)].
Definition create_connection_vlan : list token := [Some (nmcli_bin self)].
Definition modify_connection_vlan : list token := [Some (nmcli_bin self)].

Definition down_command : list token :=
  [Some (nmcli_bin self); Some "con"; Some "down"; conn_name self].

Definition up_command : list token :=
  [Some (nmcli_bin self); Some "con"; Some "up"; conn_name self].

Definition remove_command : list token :=
  [Some (nmcli_bin self); Some "con"; Some "del"; conn_name self].
End Synthesizers.

(** ** Connection inventory *)

(** One connection as the settings service returns it: the [id], [uuid] and
    [type] of its ['connection'] group and all its setting groups (group name,
    then key and value), secrets merged in. *)
Record ConnectionConfig := {
  con_id : string;
  con_uuid : string;
  con_type : string;
  con_settings : list (string * list (string * string))
}.

(** An element of the list [list_connection_info] returns: a string, or the
    list of strings [connection_to_string] builds. *)
Inductive pyitem :=
| PStr (s : string)
| PList (l : list string).

Definition newline : string := String (Ascii.ascii_of_nat 10) EmptyString.

(** [dict_to_string] on a group whose values are plain strings. *)
Definition dict_to_string (d : list (string * string)) : string :=
  fold_left (fun dstr kv => dstr ++ fst kv ++ ": " ++ snd kv ++ newline)%string d "".

Definition connection_to_string (config : ConnectionConfig) : list string :=
  map (fun group => dict_to_string (snd group)) (con_settings config).

(** The flat list [list_connection_info] accumulates: four items per
    connection. *)
Definition connection_list (configs : list ConnectionConfig) : list pyitem :=
  flat_map (fun c => [PStr (con_id c); PStr (con_uuid c); PStr (con_type c);
                      PList (connection_to_string c)]) configs.

(** [self.conn_name == con_item] *)
Definition name_equals_item (name : option string) (con_item : pyitem) : bool :=
  match name, con_item with
  | Some n, PStr s => String.eqb n s
  | _, _ => false
  end.

(** ** Reports, Executor calls and the run monad *)

(** What [run_command] returns: exit code, stdout, stderr. *)
Definition cmd_result := (Z * string * string)%type.

(** The value of the variable [cmd] handed to [execute_command]. *)
Inductive command :=
| Argv (tokens : list token)
| Returned (r : cmd_result).

(** Keyword arguments of [exit_json]. *)
Record Result := {
  r_conn_name : option string;
  r_state : option string;
  r_Exists : option string;
  r_Connection : option string;
  r_changed : option bool;
  r_stdout : option string;
  r_stderr : option string
}.

(** Keyword arguments of [fail_json]. *)
Record Failure := {
  f_msg : string;
  f_name : option string;
  f_rc : option Z;
  f_details : option string
}.

(** How a run ends: [exit_json], [fail_json], or an exception nothing
    catches (the text of the exception). *)
Inductive Report :=
| exit_json (r : Result)
| fail_json (f : Failure)
| traceback (exception : string).

Inductive Step (A : Type) :=
| Next (a : A)
| Halt (r : Report).
Arguments Next {A} a.
Arguments Halt {A} r.

Definition empty_result : Result :=
  {| r_conn_name := None; r_state := None; r_Exists := None; r_Connection := None;
     r_changed := None; r_stdout := None; r_stderr := None |}.

(** [exit_json(changed=True)] *)
Definition changed_only : Result :=
  {| r_conn_name := None; r_state := None; r_Exists := None; r_Connection := None;
     r_changed := Some true; r_stdout := None; r_stderr := None |}.

Definition failure (msg : string) : Failure :=
  {| f_msg := msg; f_name := None; f_rc := None; f_details := None |}.

(** ['%s' % value] for a string or [None]. *)
Definition percent_s (v : option string) : string :=
  match v with
  | Some s => s
  | None => "None"
  end.

(** Truth value of a command: a non-empty list, or any 3-tuple. *)
Definition truthy_command (cmd : command) : bool :=
  match cmd with
  | Argv [] => false
  | Argv (_ :: _) => true
  | Returned _ => true
  end.

(** [module.run_command] belongs to the framework ([module_utils/basic.py]):
    it runs a list of arguments and, for an argument that is neither a list
    nor a string - here the tuple a previous call returned -, ends the run
    with [fail_json(rc=257, cmd=args, msg=...)]. *)
Definition refused_command : Report :=
  fail_json {| f_msg := "Argument 'args' to run_command must be list or string";
               f_name := None; f_rc := Some 257%Z; f_details := None |}.

Definition nonempty (s : string) : bool :=
  match s with
  | EmptyString => false
  | String _ _ => true
  end.

Section Run.
(** The state of the system outside the module. *)
Variable World : Type.

(** The state a run threads: the world and the Executor calls so far. *)
Record Machine := {
  world : World;
  calls : list command
}.

Definition M (A : Type) : Type := Machine -> Step A * Machine.

Definition ret {A} (a : A) : M A := fun s => (Next a, s).

Definition bind {A B} (c : M A) (k : A -> M B) : M B :=
  fun s =>
    match c s with
    | (Next a, s') => k a s'
    | (Halt r, s') => (Halt r, s')
    end.

Definition halt {A} (r : Report) : M A := fun s => (Halt r, s).

(** [if cond: <a call that ends the run>] *)
Definition when_ (cond : bool) (stop : Report) : M unit :=
  if cond then halt stop else ret tt.
End Run.

Arguments ret {World A} a.
Arguments bind {World A B} c k.
Arguments halt {World A} r.
Arguments when_ {World} cond stop.
Arguments world {World} m.
Arguments calls {World} m.

Declare Scope run_scope.
Delimit Scope run_scope with run.
Notation "x <- c ;; k" := (bind c (fun x => k))
  (at level 61, c at next level, right associativity) : run_scope.
Notation "c ;; k" := (bind c (fun _ => k))
  (at level 61, right associativity) : run_scope.

Definition is_not_None {A} (o : option A) : bool :=
  match o with
  | Some _ => true
  | None => false
  end.

Definition is_None {A} (o : option A) : bool := negb (is_not_None o).

(** ** The Nmcli operations and the reconciler *)

Section Reconciler.
(** The host: the Executor acting on the world ([module.run_command] on a
    list of arguments), the settings service reading it ([inl e] when a bus
    call raises, the run dying of exception [e]) and the two import flags. *)
Variable World : Type.
Variable HAVE_DBUS HAVE_NM_CLIENT : bool.
Variable run_command : command -> World -> cmd_result * World.
Variable dbus_settings : World -> string + list ConnectionConfig.

Local Open Scope run_scope.

(** The call is logged; a list goes to the Executor, a tuple is refused by
    [module.run_command] (see [refused_command]). *)
Definition execute_command (cmd : command) : M World cmd_result :=
  fun s =>
    match cmd with
    | Argv _ =>
        let (r, w) := run_command cmd (world s) in
        (Next r, {| world := w; calls := calls s ++ [cmd] |})
    | Returned _ =>
        (Halt refused_command, {| world := world s; calls := calls s ++ [cmd] |})
    end.

(** [dbus_settings w] is [inl e] when one of the bus calls raises, [e] being
    the exception the run dies of. None is handled: [SystemBus()],
    [ListConnections()] and [GetSettings()] are outside the [try], and the
    handler of the [try] names [dbus.Exceptions.DBusException], an attribute
    the [dbus] module does not have (its exceptions are in
    [dbus.exceptions]), so that matching the [except] clause raises
    [AttributeError] in its turn and the [fail_json] of the handler is never
    reached. *)
Definition list_connection_info : M World (list pyitem) :=
  fun s =>
    match dbus_settings (world s) with
    | inl e => (Halt (traceback e), s)
    | inr configs => (Next (connection_list configs), s)
    end.

Section Methods.
Variable self : Nmcli.

(** Returns [True], or falls off the loop ([None], false). *)
Definition connection_exists : M World bool :=
  connections <- list_connection_info ;;
  ret (existsb (name_equals_item (conn_name self)) connections).

Definition down_connection : M World cmd_result :=
  execute_command (Argv (down_command self)).

Definition up_connection : M World cmd_result :=
  execute_command (Argv (up_command self)).

Definition remove_connection : M World cmd_result :=
  execute_command (Argv (remove_command self)).

Definition create_connection : M World cmd_result :=
  cmd <-
    (if type_is self "team" then
       if is_not_None (dns4 self) || is_not_None (dns6 self) then
         execute_command (Argv (create_connection_team self)) ;;
         execute_command (Argv (modify_connection_team self)) ;;
         r <- up_connection ;;
         ret (Returned r)
       else if is_None (dns4 self) || is_None (dns6 self) then
         ret (Argv (create_connection_team self))
       else ret (Argv [])
     else if type_is self "team-slave" then
       if is_not_None (mtu self) then
         execute_command (Argv (create_connection_team_slave self)) ;;
         execute_command (Argv (modify_connection_team_slave self)) ;;
         ret (Argv (modify_connection_team_slave self))
       else ret (Argv (create_connection_team_slave self))
     else if type_is self "bond" then
       if is_not_None (mtu self) || is_not_None (dns4 self) || is_not_None (dns6 self) then
         execute_command (Argv (create_connection_bond self)) ;;
         execute_command (Argv (modify_connection_bond self)) ;;
         r <- up_connection ;;
         ret (Returned r)
       else ret (Argv (create_connection_bond self))
     else if type_is self "bond-slave" then
       ret (Argv (create_connection_bond_slave self))
     else if type_is self "ethernet" then
       if is_not_None (mtu self) || is_not_None (dns4 self) || is_not_None (dns6 self) then
         execute_command (Argv (create_connection_ethernet self "ethernet")) ;;
         execute_command (Argv (modify_connection_ethernet self "ethernet")) ;;
         r <- up_connection ;;
         ret (Returned r)
       else ret (Argv (create_connection_ethernet self "ethernet"))
     else if type_is self "bridge" then
       ret (Argv (create_connection_bridge self))
     else if type_is self "vlan" then
       ret (Argv (create_connection_vlan self))
     else if type_is self "generic" then
       ret (Argv (create_connection_ethernet self "generic"))
     else ret (Argv [])) ;;
  if truthy_command cmd then execute_command cmd
  else halt (fail_json (failure
         ("Type of device or network connection is required "
          ++ "while performing 'create' operation. Please specify 'type' as an argument.")%string)).

(** The list [modify_connection] selects; [[]] when no branch applies. *)
Definition modify_command : list token :=
  if type_is self "team" then modify_connection_team self
  else if type_is self "team-slave" then modify_connection_team_slave self
  else if type_is self "bond" then modify_connection_bond self
  else if type_is self "bond-slave" then modify_connection_bond_slave self
  else if type_is self "ethernet" then modify_connection_ethernet self "ethernet"
  else if type_is self "bridge" then modify_connection_bridge self
  else if type_is self "vlan" then modify_connection_vlan self
  else if type_is self "generic" then modify_connection_ethernet self "generic"
  else [].

Definition modify_connection : M World cmd_result :=
  let cmd := Argv modify_command in
  if truthy_command cmd then execute_command cmd
  else halt (fail_json (failure
         ("Type of device or network connection is required "
          ++ "while performing 'modify' operation. Please specify 'type' as an argument.")%string)).
End Methods.

(** The local variables [(rc, out, err)] and [result] of [main]. *)
Record Locals := {
  rc : option Z;
  out : string;
  err : string;
  result : Result
}.

Definition assign (l : Locals) (r : cmd_result) : Locals :=
  let '(rc', out', err') := r in
  {| rc := Some rc'; out := out'; err := err'; result := result l |}.

Definition set_Exists (l : Locals) (v : string) : Locals :=
  let r := result l in
  {| rc := rc l; out := out l; err := err l;
     result := {| r_conn_name := r_conn_name r; r_state := r_state r;
                  r_Exists := Some v; r_Connection := r_Connection r;
                  r_changed := r_changed r; r_stdout := r_stdout r;
                  r_stderr := r_stderr r |} |}.

Definition set_Connection (l : Locals) (v : string) : Locals :=
  let r := result l in
  {| rc := rc l; out := out l; err := err l;
     result := {| r_conn_name := r_conn_name r; r_state := r_state r;
                  r_Exists := r_Exists r; r_Connection := Some v;
                  r_changed := r_changed r; r_stdout := r_stdout r;
                  r_stderr := r_stderr r |} |}.

(** The tail of [main]: [changed], [stdout] and [stderr] are filled in. *)
Definition final_result (l : Locals) : Result :=
  let r := result l in
  {| r_conn_name := r_conn_name r; r_state := r_state r;
     r_Exists := r_Exists r; r_Connection := r_Connection r;
     r_changed := Some (is_not_None (rc l));
     r_stdout := if nonempty (out l) then Some (out l) else r_stdout r;
     r_stderr := if nonempty (err l) then Some (err l) else r_stderr r |}.

Definition rc_failed (code : option Z) : bool :=
  match code with
  | Some c => negb (Z.eqb c 0)
  | None => false
  end.

Definition main (module : AnsibleModule) : M World Empty_set :=
  when_ (negb HAVE_DBUS)
    (fail_json (failure "This module requires dbus python bindings")) ;;
  when_ (negb HAVE_NM_CLIENT)
    (fail_json (failure "This module requires NetworkManager glib API")) ;;
  let nmcli := Nmcli_init module in
  let l0 := {| rc := None; out := ""; err := "";
               result := {| r_conn_name := conn_name nmcli; r_state := Some (state nmcli);
                            r_Exists := None; r_Connection := None; r_changed := None;
                            r_stdout := None; r_stderr := None |} |} in
  when_ (is_None (conn_name nmcli))
    (fail_json (failure "Please specify a name for the connection")) ;;
  when_ (type_is nmcli "team-slave" && is_None (master nmcli))
    (fail_json (failure "Please specify a name for the master")) ;;
  when_ (type_is nmcli "team-slave" && is_None (ifname nmcli))
    (fail_json (failure "Please specify an interface name for the connection")) ;;
  l <-
    (if String.eqb (state nmcli) "absent" then
       found <- connection_exists nmcli ;;
       if found then
         when_ (check_mode module) (exit_json changed_only) ;;
         r <- down_connection nmcli ;;
         let l1 := assign l0 r in
         r <- remove_connection nmcli ;;
         let l2 := assign l1 r in
         when_ (rc_failed (rc l2))
           (fail_json {| f_msg := err l2;
                         f_name := Some ("No Connection named " ++ percent_s (conn_name nmcli)
                                         ++ " exists")%string;
                         f_rc := rc l2; f_details := None |}) ;;
         ret l2
       else ret l0
     else if String.eqb (state nmcli) "present" then
       found <- connection_exists nmcli ;;
       l1 <-
         (if found then
            let l := set_Exists l0 "Connections do exist so we are modifying them" in
            when_ (check_mode module) (exit_json changed_only) ;;
            r <- modify_connection nmcli ;;
            ret (assign l r)
          else ret l0) ;;
       found <- connection_exists nmcli ;;
       l2 <-
         (if negb found then
            let l := set_Connection l1
                       ("Connection " ++ percent_s (conn_name nmcli) ++ " of Type "
                        ++ percent_s (type nmcli) ++ " is being added")%string in
            when_ (check_mode module) (exit_json changed_only) ;;
            r <- create_connection nmcli ;;
            ret (assign l r)
          else ret l1) ;;
       when_ (rc_failed (rc l2))
         (fail_json {| f_msg := err l2; f_name := conn_name nmcli;
                       f_rc := rc l2; f_details := None |}) ;;
       ret l2
     else ret l0) ;;
  halt (exit_json (final_result l)).

(** A whole run from a world: the report and the machine it ends in. *)
Definition run (module : AnsibleModule) (w : World) : Report * Machine World :=
  match main module {| world := w; calls := [] |} with
  | (Halt r, s) => (r, s)
  | (Next e, _) => match e with end
  end.

(** The Executor calls of [create_connection] alone, from a world. *)
Definition create_calls (self : Nmcli) (w : World) : list command :=
  calls (snd (create_connection self {| world := w; calls := [] |})).
End Reconciler.

Arguments execute_command {World} run_command cmd.
Arguments create_connection {World} run_command self.
Arguments modify_connection {World} run_command self.
Arguments create_calls {World} run_command self w.
Arguments connection_exists {World} dbus_settings self.
Arguments run {World} HAVE_DBUS HAVE_NM_CLIENT run_command dbus_settings module w.

(** The list the selected branch of [create_connection] builds first. *)
Definition create_command (self : Nmcli) : list token :=
  if type_is self "team" then create_connection_team self
  else if type_is self "team-slave" then create_connection_team_slave self
  else if type_is self "bond" then create_connection_bond self
  else if type_is self "bond-slave" then create_connection_bond_slave self
  else if type_is self "ethernet" then create_connection_ethernet self "ethernet"
  else if type_is self "bridge" then create_connection_bridge self
  else if type_is self "vlan" then create_connection_vlan self
  else if type_is self "generic" then create_connection_ethernet self "generic"
  else [].

(** ** A scripted host for concrete runs

    The world is an inventory and the replies the Executor will give, in
    order (exit code 0 and no output once they are used up); commands leave
    the inventory as it is. *)
Module Host.
Record World := {
  inventory : list ConnectionConfig;
  replies : list cmd_result
}.

Definition run_command (cmd : command) (w : World) : cmd_result * World :=
  match replies w with
  | r :: rest => (r, {| inventory := inventory w; replies := rest |})
  | [] => ((0%Z, "", ""), w)
  end.

Definition dbus_settings (w : World) : string + list ConnectionConfig :=
  inr (inventory w).

Definition quiet (inv : list ConnectionConfig) : World :=
  {| inventory := inv; replies := [] |}.

(** Parameters with the given state, name, type, interface name, master,
    IPv4 address and gateway, DNS lists, MTU and down delay; every other
    parameter has the default of [main]'s argument_spec. *)
Definition spec (st name : string) (ty ifn mst addr4 gate4 : option string)
    (d4 : option (list string)) (d6 m dd : option string) : Params :=
  {| param_autoconnect := None; param_state := st; param_conn_name := Some name;
     param_master := mst; param_ifname := ifn; param_type := ty;
     param_ip4 := addr4; param_gw4 := gate4; param_dns4 := d4;
     param_ip6 := None; param_gw6 := None; param_dns6 := d6;
     param_mode := Some "balance-rr"; param_miimon := None; param_downdelay := dd;
     param_updelay := None; param_arp_interval := None; param_arp_ip_target := None;
     param_primary := None; param_mtu := m; param_mac := None;
     param_stp := Some true; param_priority := Some "128";
     param_slavepriority := Some "32"; param_forwarddelay := Some "15";
     param_hellotime := Some "2"; param_maxage := Some "20";
     param_ageingtime := Some "300"; param_vlanid := None; param_vlandev := None;
     param_flags := None; param_ingress := None; param_egress := None |}.

Definition ansible (p : Params) (check : bool) : AnsibleModule :=
  {| params := p; check_mode := check; get_bin_path := "/usr/bin/nmcli" |}.

Definition eth0 : ConnectionConfig :=
  {| con_id := "eth0"; con_uuid := "5fb06bd0-0bb0-7ffb-45f1-d6edd65f3e03";
     con_type := "802-3-ethernet";
     con_settings := [("connection", [("id", "eth0"); ("type", "802-3-ethernet")]);
                      ("ipv4", [("method", "auto")])] |}.
End Host.

(** ** Notions the properties are stated with *)

(** *** Phases of a create *)

Section Phases.
Variable World : Type.
Variable run_command : command -> World -> cmd_result * World.

(** A single create call and nothing else. *)
Definition single_phase (self : Nmcli) (w : World) : Prop :=
  create_calls run_command self w = [Argv (create_command self)].

(** The create call, then the modify call, then whatever follows. *)
Definition two_phase (self : Nmcli) (w : World) : Prop :=
  exists rest,
    create_calls run_command self w
    = Argv (create_command self) :: Argv (modify_command self) :: rest.

(** For connections of type [ty], the create runs the modify step exactly
    when [cond] holds, and is a single call exactly when it does not. *)
Definition phase_rule (ty : string) (cond : Nmcli -> bool) (self : Nmcli) (w : World) : Prop :=
  type self = Some ty ->
  (two_phase self w <-> cond self = true)
  /\ (single_phase self w <-> cond self = false).

(** The conditions [create_connection] tests. *)
Definition dns_set (self : Nmcli) : bool :=
  is_not_None (dns4 self) || is_not_None (dns6 self).

Definition mtu_set (self : Nmcli) : bool := is_not_None (mtu self).

Definition mtu_or_dns_set (self : Nmcli) : bool :=
  is_not_None (mtu self) || is_not_None (dns4 self) || is_not_None (dns6 self).

Definition never (self : Nmcli) : bool := false.

(** The policy of the design, with the rule for [generic] left open. *)
Definition policy (generic_rule : Nmcli -> bool) (self : Nmcli) (w : World) : Prop :=
  phase_rule "team" dns_set self w
  /\ phase_rule "team-slave" mtu_set self w
  /\ phase_rule "bond" mtu_or_dns_set self w
  /\ phase_rule "ethernet" mtu_or_dns_set self w
  /\ phase_rule "generic" generic_rule self w
  /\ phase_rule "bond-slave" never self w.

(** The calls of a create are the create list, the modify list and the
    activation, and nothing else. *)
Definition create_modify_activate (self : Nmcli) (w : World) : Prop :=
  create_calls run_command self w
  = [Argv (create_command self); Argv (modify_command self); Argv (up_command self)].
End Phases.

Arguments single_phase {World} run_command self w.
Arguments two_phase {World} run_command self w.
Arguments phase_rule {World} run_command ty cond self w.
Arguments policy {World} run_command generic_rule self w.
Arguments create_modify_activate {World} run_command self w.

(** *** Attribute pairs of a command list *)

(** The tokens two by two: key, then value. *)
Fixpoint pairs (l : list token) : list (token * token) :=
  match l with
  | k :: v :: rest => (k, v) :: pairs rest
  | _ => []
  end.

(** The pairs of a create list, after the binary, [con] and [add]: [type],
    [con-name], [ifname], then the attributes. *)
Definition create_pairs (self : Nmcli) : list (token * token) :=
  pairs (skipn 3 (create_command self)).

(** The pairs of a modify list, after the binary, [con], [mod] and the name. *)
Definition modify_pairs (self : Nmcli) : list (token * token) :=
  pairs (skipn 4 (modify_command self)).

(** [key] heads a pair exactly when [value] is set, and then with that value:
    the pair is present for a non-null field and no pair with this key is
    there for a null one. *)
Definition renders (ps : list (token * token)) (key : string) (value : option string) : Prop :=
  forall v, In (Some key, v) ps <-> exists s, value = Some s /\ v = Some s.

(** No pair is headed by [key]. *)
Definition no_key (ps : list (token * token)) (key : string) : Prop :=
  forall v, ~ In (Some key, v) ps.

(** The pair a guarded block contributes. *)
Definition guarded_pair {A} (guard : option A) (k v : token) : list (token * token) :=
  match guard with
  | Some _ => [(k, v)]
  | None => []
  end.

(** A key and the attribute it carries, as the token to emit. *)
Definition field : Type := string * (Nmcli -> option string).

Definition yes_no (self : Nmcli) : option string :=
  option_map bool_to_string (autoconnect self).

Definition address_fields_create : list field :=
  [("ip4", ip4); ("gw4", gw4); ("ip6", ip6); ("gw6", gw6); ("autoconnect", yes_no)].

Definition address_fields_modify : list field :=
  [("ipv4.address", ip4); ("ipv4.gateway", gw4); ("ipv4.dns", dns4);
   ("ipv6.address", ip6); ("ipv6.gateway", gw6); ("ipv6.dns", dns6);
   ("autoconnect", yes_no)].

(** The optional fields each create synthesizer emits under the field's own
    guard. *)
Definition emitted_on_create (ty : string) : list field :=
  if String.eqb ty "team" then address_fields_create
  else if String.eqb ty "bond"
  then ("mode", mode) :: address_fields_create
       ++ [("miimon", miimon); ("downdelay", downdelay); ("primary", primary)]
  else if String.eqb ty "ethernet" then address_fields_create
  else if String.eqb ty "generic" then address_fields_create
  else [].

(** The optional fields each modify synthesizer emits under the field's own
    guard. *)
Definition emitted_on_modify (ty : string) : list field :=
  if String.eqb ty "team" then address_fields_modify
  else if String.eqb ty "team-slave" then [("802-3-ethernet.mtu", mtu)]
  else if String.eqb ty "bond" then address_fields_modify
  else if String.eqb ty "ethernet"
  then address_fields_modify ++ [("802-3-ethernet.mtu", mtu)]
  else if String.eqb ty "generic" then address_fields_modify
  else [].

(** The connection types whose modify list carries the DNS servers. *)
Definition dns_types : list string := ["team"; "bond"; "ethernet"; "generic"].

(** The DNS value of the design: at most three entries, in input order,
    joined by single spaces. *)
Definition capped_dns (l : list string) : string := join (firstn 3 l).

(** The DNS value the constructor keeps: every entry of a non-empty list. *)
Definition joined_dns (l : option (list string)) : option string :=
  match l with
  | Some (e :: es) => Some (join (e :: es))
  | _ => None
  end.

(** *** Existence by name *)

(** The design's matcher: some record's name field equals the name. *)
Definition name_matches (name : string) (records : list ConnectionConfig) : bool :=
  existsb (fun c => String.eqb name (con_id c)) records.

(** What the loop of [connection_exists] compares the name with: the name,
    the UUID and the type of each record. *)
Definition item_matches (name : string) (records : list ConnectionConfig) : bool :=
  existsb (fun c => String.eqb name (con_id c) || String.eqb name (con_uuid c)
                    || String.eqb name (con_type c)) records.

(** *** Runs of the reconciler *)

Section Verdicts.
Variable World : Type.
Variable dbus_settings : World -> string + list ConnectionConfig.

(** The existence check finds the name in world [w]. *)
Definition listed (name : option string) (w : World) : Prop :=
  exists configs,
    dbus_settings w = inr configs
    /\ existsb (name_equals_item name) (connection_list configs) = true.

(** The settings service answers in world [w] and the check finds nothing. *)
Definition unlisted (name : option string) (w : World) : Prop :=
  exists configs,
    dbus_settings w = inr configs
    /\ existsb (name_equals_item name) (connection_list configs) = false.
End Verdicts.

Arguments listed {World} dbus_settings name w.
Arguments unlisted {World} dbus_settings name w.

(** The checks [main] makes before it looks at the state. *)
Definition checks_pass (nmcli : Nmcli) : bool :=
  is_not_None (conn_name nmcli)
  && negb (type_is nmcli "team-slave" && is_None (master nmcli))
  && negb (type_is nmcli "team-slave" && is_None (ifname nmcli)).

(** The [changed] value a report carries, if it carries one. *)
Definition verdict (r : Report) : option bool :=
  match r with
  | exit_json res => r_changed res
  | fail_json _ => None
  | traceback _ => None
  end.

Definition with_check_mode (check : bool) (m : AnsibleModule) : AnsibleModule :=
  {| params := params m; check_mode := check; get_bin_path := get_bin_path m |}.

(** The result of a run that went through: name and state, the note left by
    the branch taken, [changed], and the output of the last call. *)
Definition report_of (nmcli : Nmcli) (note_exists note_connection : option string)
    (changed : bool) (r : cmd_result) : Result :=
  let '(_, out, err) := r in
  {| r_conn_name := conn_name nmcli; r_state := Some (state nmcli);
     r_Exists := note_exists; r_Connection := note_connection;
     r_changed := Some changed;
     r_stdout := if nonempty out then Some out else None;
     r_stderr := if nonempty err then Some err else None |}.

(** *** Concrete inputs *)

Module Examples.
Import Host.

(** [{name: my-eth1, type: ethernet, ip4: 192.0.2.100/24, gw4: 192.0.2.1,
    state: present}] *)
Definition my_eth1 : Params :=
  spec "present" "my-eth1" (Some "ethernet") None None
       (Some "192.0.2.100/24") (Some "192.0.2.1") None None None None.

(** The same with two IPv4 DNS servers. *)
Definition my_eth1_dns : Params :=
  spec "present" "my-eth1" (Some "ethernet") None None
       (Some "192.0.2.100/24") (Some "192.0.2.1")
       (Some ["192.0.2.53"; "198.51.100.53"]) None None None.

(** And with four of them. *)
Definition my_eth1_dns_four : Params :=
  spec "present" "my-eth1" (Some "ethernet") None None
       (Some "192.0.2.100/24") (Some "192.0.2.1")
       (Some ["192.0.2.53"; "198.51.100.53"; "203.0.113.53"; "192.0.2.54"]) None None None.

(** A generic connection with an MTU and a DNS server. *)
Definition generic_mtu : Params :=
  spec "present" "gen0" (Some "generic") (Some "gen0") None None None
       (Some ["192.0.2.53"]) None (Some "9000") None.

(** A team connection with an MTU. *)
Definition team_mtu : Params :=
  spec "present" "team0" (Some "team") (Some "team0") None None None None None
       (Some "9000") None.

(** A team-slave with an MTU. *)
Definition team_slave_mtu : Params :=
  spec "present" "team-em1" (Some "team-slave") (Some "em1") (Some "team0") None None
       None None (Some "9000") None.

(** A team-slave and a bond-slave with no master. *)
Definition team_slave_no_master : Params :=
  spec "present" "team-em1" (Some "team-slave") (Some "em1") None None None
       None None None None.

Definition bond_slave_no_master : Params :=
  spec "present" "bond-em1" (Some "bond-slave") (Some "em1") None None None
       None None None None.

(** A bond with a down delay and no up delay. *)
Definition bond_downdelay : Params :=
  spec "present" "bond0" (Some "bond") (Some "bond0") None None None None None None
       (Some "100").

(** Removal and update of the connection [eth0] of the inventory. *)
Definition eth0_absent : Params :=
  spec "absent" "eth0" None None None None None None None None None.

Definition eth0_present : Params :=
  spec "present" "eth0" (Some "ethernet") (Some "eth0") None
       (Some "192.0.2.100/24") None None None None None.

(** A name that is the type of [eth0], not the name of any record. *)
Definition named_like_a_type : Params :=
  spec "present" "802-3-ethernet" (Some "ethernet") (Some "eth1") None
       None None None None None None.

(** The argument tokens of the create call for [my_eth1]. *)
Definition my_eth1_tokens : list token :=
  map Some ["con"; "add"; "type"; "ethernet"; "con-name"; "my-eth1"; "ifname"; "my-eth1";
            "ip4"; "192.0.2.100/24"; "gw4"; "192.0.2.1"].

Definition nmcli_of (p : Params) : Nmcli := Nmcli_init (ansible p false).

Definition start (w : World) : Machine World := {| world := w; calls := [] |}.

(** The first call fails with exit code 10, the second succeeds. *)
Definition down_fails : World :=
  {| inventory := [eth0];
     replies := [(10%Z, "", "Error: 'eth0' is not an active connection."); (0%Z, "", "")] |}.

(** The only call fails with exit code 1. *)
Definition call_fails : World :=
  {| inventory := []; replies := [(1%Z, "", "Error: failed.")] |}.
End Examples.

(** *** Further notions *)

(** The choices of the [type] parameter in [main]'s argument_spec. *)
Definition type_choices : list string :=
  ["ethernet"; "team"; "team-slave"; "bond"; "bond-slave"; "bridge"; "vlan"; "generic"].

(** The failures of [create_connection] and [modify_connection] when no
    branch builds a list. *)
Definition create_type_error : Report :=
  fail_json (failure
    ("Type of device or network connection is required "
     ++ "while performing 'create' operation. Please specify 'type' as an argument.")%string).

Definition modify_type_error : Report :=
  fail_json (failure
    ("Type of device or network connection is required "
     ++ "while performing 'modify' operation. Please specify 'type' as an argument.")%string).

(** The types whose modify list is [con mod] and the name, then
    attributes (for bridge and vlan it is the bare binary). *)
Definition modify_types : list string :=
  ["team"; "team-slave"; "bond"; "bond-slave"; "ethernet"; "generic"].

(** The log starts with a Modify operation on the connection: the binary,
    [con], [mod], the name, then attributes. *)
Definition modify_issued (nmcli : Nmcli) (log : list command) : Prop :=
  exists attributes rest,
    log = Argv ([Some (nmcli_bin nmcli); Some "con"; Some "mod"; conn_name nmcli]
                ++ attributes) :: rest.

(** The notes [main] leaves in the result. *)
Definition exists_note : string := "Connections do exist so we are modifying them".

Definition connection_note (nmcli : Nmcli) : string :=
  ("Connection " ++ percent_s (conn_name nmcli) ++ " of Type "
   ++ percent_s (type nmcli) ++ " is being added")%string.

(** How the present branch of [main] ends on the result [r] of its last
    operation: a failure carrying the exit code and stderr, or the result
    with [changed=true]. *)
Definition present_outcome (nmcli : Nmcli) (note_exists note_connection : option string)
    (r : cmd_result) : Report :=
  let '(code, _, err) := r in
  if Z.eqb code 0
  then exit_json (report_of nmcli note_exists note_connection true r)
  else fail_json {| f_msg := err; f_name := conn_name nmcli;
                    f_rc := Some code; f_details := None |}.

(** The create runs the modify step and the activation: team with DNS, bond
    and ethernet with MTU or DNS. *)
Definition activating (self : Nmcli) : bool :=
  (type_is self "team" && dns_set self)
  || (type_is self "bond" && mtu_or_dns_set self)
  || (type_is self "ethernet" && mtu_or_dns_set self).

(** The interface name a create list carries: [ifname], else the name. *)
Definition ifname_or (self : Nmcli) (name : string) : string :=
  match ifname self with
  | Some i => i
  | None => name
  end.

(** A bond's down delay is set and one of the three attributes its guard
    covers is not. *)
Definition bond_guard_gap (self : Nmcli) : bool :=
  is_not_None (downdelay self)
  && (is_None (updelay self) || is_None (arp_interval self)
      || is_None (arp_ip_target self)).

(** The type is one of the choices. *)
Definition known_type (self : Nmcli) : Prop :=
  exists ty, type self = Some ty /\ In ty type_choices.

(** *** The settings service, value by value *)

From Stdlib Require Import DecimalString.

Module Settings.

(** A Python dict with string keys (each key once), in insertion order. *)
Definition dict (V : Type) : Type := list (string * V).

(** [d[k]]; [None] stands for KeyError. *)
Fixpoint getitem {V} (k : string) (d : dict V) : option V :=
  match d with
  | [] => None
  | (k', v) :: rest => if String.eqb k k' then Some v else getitem k rest
  end.

(** [d[k] = v]: the value of an existing key is replaced, a new key goes
    last. *)
Fixpoint setitem {V} (k : string) (v : V) (d : dict V) : dict V :=
  match d with
  | [] => [(k, v)]
  | (k', v') :: rest =>
      if String.eqb k k' then (k', v) :: rest else (k', v') :: setitem k v rest
  end.

(** An element of a [dbus.Array]. *)
Inductive element :=
| Byte (n : nat)
| Str (s : string)
| OtherElement.

#[local] Set Warnings "-register-all".

(** A value of a settings dict: an array, a nested dictionary, or any other
    value with the text ['%s'] gives it. *)
Inductive value :=
| Array (elts : list element)
| Dictionary (d : list (string * value))
| Plain (s : string).

(** [int(elt)] as ['%s'] prints it. *)
Definition decimal (n : nat) : string := NilEmpty.string_of_uint (Nat.to_uint n).

(** What the loop over an array adds to [str_val] for one element. *)
Definition element_to_string (elt : element) : string :=
  match elt with
  | Byte n => (decimal n ++ " ")%string
  | Str s => s
  | OtherElement => ""
  end.

(** What one key of the dict adds to [dstr]. *)
Fixpoint entry_to_string (key : string) (val : value) : string :=
  match val with
  | Array elts =>
      (key ++ ": " ++ String.concat "" (map element_to_string elts) ++ newline)%string
  | Dictionary d =>
      (fix entries (l : list (string * value)) : string :=
         match l with
         | [] => ""
         | (k, v) :: rest => (entry_to_string k v ++ entries rest)%string
         end) d
  | Plain s => (key ++ ": " ++ s ++ newline)%string
  end.

Fixpoint dict_to_string (d : dict value) : string :=
  match d with
  | [] => ""
  | (key, val) :: rest => (entry_to_string key val ++ dict_to_string rest)%string
  end.

Definition connection_to_string (config : dict (dict value)) : list string :=
  map (fun group => dict_to_string (snd group)) config.

(** One assignment [config[setting_name][key] = v] of [merge_secrets];
    [None] when [config[setting_name]] raises KeyError. *)
Definition assign_secret (setting_name key : string) (v : value)
    (config : dict (dict value)) : option (dict (dict value)) :=
  match getitem setting_name config with
  | Some group => Some (setitem setting_name (setitem key v group) config)
  | None => None
  end.

(** The two loops over the secrets, one entry after the other, up to the
    first exception: the config as changed so far. *)
Fixpoint assign_secrets (setting_name : string) (entries : list (string * value))
    (config : dict (dict value)) : dict (dict value) :=
  match entries with
  | [] => config
  | (key, v) :: rest =>
      match assign_secret setting_name key v config with
      | Some config' => assign_secrets setting_name rest config'
      | None => config
      end
  end.

(** The values one after the other, as the loops assign them to a group. *)
Definition assign_all (entries : list (string * value)) (group : dict value) : dict value :=
  fold_left (fun g kv => setitem (fst kv) (snd kv) g) entries group.

Section Secrets.
(** [proxy.GetSecrets]; [None] when the call raises. *)
Variable GetSecrets : string -> option (dict (dict value)).

Definition merge_secrets (config : dict (dict value)) (setting_name : string)
    : dict (dict value) :=
  match GetSecrets setting_name with
  | Some secrets => assign_secrets setting_name (flat_map snd secrets) config
  | None => config
  end.

(** The setting groups [list_connection_info] fetches secrets for. *)
Definition secret_settings : list string :=
  ["802-11-wireless"; "802-11-wireless-security"; "802-1x"; "gsm"; "cdma"; "ppp"].

(** The body of the loop of [list_connection_info] for one connection whose
    [GetSettings] returned [config]: the four items appended, [None] when
    ['connection'] or one of its three keys is missing (KeyError). *)
Definition connection_items (config : dict (dict value))
    : option (value * value * value * list string) :=
  let config := fold_left merge_secrets secret_settings config in
  match getitem "connection" config with
  | Some s_con =>
      match getitem "id" s_con, getitem "uuid" s_con, getitem "type" s_con with
      | Some id, Some uuid, Some ty => Some (id, uuid, ty, connection_to_string config)
      | _, _, _ => None
      end
  | None => None
  end.
End Secrets.
End Settings.

(** *** More concrete inputs *)

Module MoreExamples.
Import Host.

(** A settings service that cannot be reached: [get_object] raises and the
    handler clause raises in its turn. *)
Definition dbus_down (w : World) : string + list ConnectionConfig :=
  inl "AttributeError: module 'dbus' has no attribute 'Exceptions'".

(** An Executor after whose calls the inventory is empty. *)
Definition run_and_drop (cmd : command) (w : World) : cmd_result * World :=
  let (r, w') := run_command cmd w in
  (r, {| inventory := []; replies := replies w' |}).

(** No type given: for a new name and for [eth0]. *)
Definition untyped_new : Params :=
  spec "present" "eth9" None None None None None None None None None.

Definition untyped_eth0 : Params :=
  spec "present" "eth0" None None None None None None None None None.

(** A team-slave with a master and no interface name. *)
Definition team_slave_no_ifname : Params :=
  spec "present" "team-em1" (Some "team-slave") None (Some "team0") None None
       None None None None.

Definition bridge0 : Params :=
  spec "present" "br0" (Some "bridge") (Some "br0") None None None None None None None.

(** An ethernet connection with an empty list of DNS servers. *)
Definition eth_empty_dns : Params :=
  spec "present" "my-eth1" (Some "ethernet") None None
       (Some "192.0.2.100/24") None (Some []) None None None.

(** The first call fails with exit code 4, the next three succeed. *)
Definition create_step_fails : World :=
  {| inventory := [];
     replies := [(4%Z, "", "Error: Failed to add 'my-eth1' connection.");
                 (0%Z, "", ""); (0%Z, "", ""); (0%Z, "done", "")] |}.

(** [eth0] is listed and the only call fails with exit code 10. *)
Definition modify_fails : World :=
  {| inventory := [eth0]; replies := [(10%Z, "", "Error: unknown connection 'eth0'.")] |}.

(** The settings of a wireless connection and a reply of [GetSecrets] for
    its security group (nothing for the other groups). *)
Definition wifi : Settings.dict (Settings.dict Settings.value) :=
  [("connection", [("id", Settings.Plain "home"); ("uuid", Settings.Plain "0b1f");
                   ("type", Settings.Plain "802-11-wireless")]);
   ("802-11-wireless-security", [("key-mgmt", Settings.Plain "wpa-psk")])].

Definition wifi_secrets (name : string)
    : option (Settings.dict (Settings.dict Settings.value)) :=
  if String.eqb name "802-11-wireless-security"
  then Some [("802-11-wireless-security", [("psk", Settings.Plain "hunter2")])]
  else None.
End MoreExamples.

(** * Properties *)

(** Selects the branch of the type named by hypothesis [H]. *)
Ltac pick_type H :=
  unfold create_calls, create_connection, create_command, modify_command, type_is;
  rewrite H; cbn [String.eqb Ascii.eqb Bool.eqb andb orb negb].

(** Runs the monadic steps, naming the result of every Executor call. *)
Ltac run_calls run_command :=
  unfold bind, up_connection, down_connection, remove_connection, execute_command,
    ret, halt, when_; cbn;
  repeat (match goal with
          | |- context [run_command ?c ?w] => destruct (run_command c w) as [[[? ?] ?] ?]
          end; cbn).

(** The branches of a dispatch on the type, one goal each. *)
Ltac by_type self :=
  destruct (type_is self "team");
  [|destruct (type_is self "team-slave");
    [|destruct (type_is self "bond");
      [|destruct (type_is self "bond-slave");
        [|destruct (type_is self "ethernet");
          [|destruct (type_is self "bridge");
            [|destruct (type_is self "vlan");
              [|destruct (type_is self "generic")]]]]]]].

(** ** The calls of a create, type by type *)

Section CreateCalls.
Variable World : Type.
Variable run_command : command -> World -> cmd_result * World.

Lemma phases_exclusive self w :
  single_phase run_command self w -> two_phase run_command self w -> False.
Proof.
  unfold single_phase, two_phase. intros H [rest H']. congruence.
Qed.

(** A create that runs the modify step logs the tuple of the activation as
    a fourth call (team, bond, ethernet) or the modify list twice
    (team-slave). *)
Lemma create_calls_team self w :
  type self = Some "team" ->
  if dns_set self
  then exists r, create_calls run_command self w
                 = [Argv (create_command self); Argv (modify_command self);
                    Argv (up_command self); Returned r]
  else create_calls run_command self w = [Argv (create_command self)].
Proof.
  intros H. unfold dns_set. pick_type H.
  destruct (dns4 self), (dns6 self); cbn; run_calls run_command; eauto.
Qed.

Lemma create_calls_team_slave self w :
  type self = Some "team-slave" ->
  create_calls run_command self w
  = if mtu_set self
    then [Argv (create_command self); Argv (modify_command self);
          Argv (modify_command self)]
    else [Argv (create_command self)].
Proof.
  intros H. unfold mtu_set. pick_type H.
  destruct (mtu self); cbn; run_calls run_command; eauto.
Qed.

Lemma create_calls_bond self w :
  type self = Some "bond" ->
  if mtu_or_dns_set self
  then exists r, create_calls run_command self w
                 = [Argv (create_command self); Argv (modify_command self);
                    Argv (up_command self); Returned r]
  else create_calls run_command self w = [Argv (create_command self)].
Proof.
  intros H. unfold mtu_or_dns_set. pick_type H.
  destruct (mtu self), (dns4 self), (dns6 self); cbn; run_calls run_command; eauto.
Qed.

Lemma create_calls_ethernet self w :
  type self = Some "ethernet" ->
  if mtu_or_dns_set self
  then exists r, create_calls run_command self w
                 = [Argv (create_command self); Argv (modify_command self);
                    Argv (up_command self); Returned r]
  else create_calls run_command self w = [Argv (create_command self)].
Proof.
  intros H. unfold mtu_or_dns_set. pick_type H.
  destruct (mtu self), (dns4 self), (dns6 self); cbn; run_calls run_command; eauto.
Qed.

Lemma create_calls_bond_slave self w :
  type self = Some "bond-slave" ->
  create_calls run_command self w = [Argv (create_command self)].
Proof.
  intros H. pick_type H. cbn; run_calls run_command; eauto.
Qed.

Lemma create_calls_generic self w :
  type self = Some "generic" ->
  create_calls run_command self w = [Argv (create_command self)].
Proof.
  intros H. pick_type H. cbn; run_calls run_command; eauto.
Qed.

(** A bridge or VLAN create, and a create with no known type, never run a
    modify step. *)
Lemma create_calls_other self w :
  type_is self "team" = false -> type_is self "team-slave" = false ->
  type_is self "bond" = false -> type_is self "ethernet" = false ->
  (length (create_calls run_command self w) <= 1)%nat.
Proof.
  unfold create_calls, create_connection. intros -> -> -> ->.
  destruct (type_is self "bond-slave"); [cbn; run_calls run_command; auto|].
  destruct (type_is self "bridge"); [cbn; run_calls run_command; auto|].
  destruct (type_is self "vlan"); [cbn; run_calls run_command; auto|].
  destruct (type_is self "generic"); cbn; run_calls run_command; auto.
Qed.

Lemma phase_rule_intro ty cond self w :
  (type self = Some ty -> cond self = true -> two_phase run_command self w) ->
  (type self = Some ty -> cond self = false -> single_phase run_command self w) ->
  phase_rule run_command ty cond self w.
Proof.
  intros Htwo Hone Hty. split; split; intros H.
  - destruct (cond self) eqn:E; [reflexivity|].
    exfalso. eapply phases_exclusive; eauto.
  - auto.
  - destruct (cond self) eqn:E; [|reflexivity].
    exfalso. eapply phases_exclusive; eauto.
  - auto.
Qed.

Lemma type_is_true self name : type_is self name = true -> type self = Some name.
Proof.
  unfold type_is. destruct (type self) as [t|]; [|discriminate].
  intros H. apply String.eqb_eq in H. congruence.
Qed.

Lemma type_is_other self ty name :
  type self = Some ty -> String.eqb ty name = false -> type_is self name = false.
Proof.
  unfold type_is. intros -> H. exact H.
Qed.

(** C2, as amended. When a create runs the modify step, its calls start
    with the create list, then the modify list, then - for team, bond and
    ethernet - the activation [con up]; a team-slave create issues no
    activation at all. *)
Theorem two_phase_sequence self w :
  two_phase run_command self w ->
  if type_is self "team-slave"
  then ~ In (Argv (up_command self)) (create_calls run_command self w)
  else exists rest,
         create_calls run_command self w
         = Argv (create_command self) :: Argv (modify_command self)
           :: Argv (up_command self) :: rest.
Proof.
  intros [rest0 Htwo].
  destruct (type_is self "team") eqn:Eteam.
  { apply type_is_true in Eteam.
    rewrite (type_is_other self _ "team-slave" Eteam eq_refl).
    pose proof (create_calls_team self w Eteam) as H.
    destruct (dns_set self).
    - destruct H as [r ->]. eauto.
    - rewrite H in Htwo. discriminate Htwo. }
  destruct (type_is self "team-slave") eqn:Eslave.
  { apply type_is_true in Eslave.
    pose proof (create_calls_team_slave self w Eslave) as H.
    destruct (mtu_set self).
    - rewrite H. unfold create_command, modify_command, type_is. rewrite Eslave.
      cbn. intros [E|[E|[E|[]]]]; discriminate E.
    - rewrite H in Htwo. discriminate Htwo. }
  destruct (type_is self "bond") eqn:Ebond.
  { apply type_is_true in Ebond.
    pose proof (create_calls_bond self w Ebond) as H.
    destruct (mtu_or_dns_set self).
    - destruct H as [r ->]. eauto.
    - rewrite H in Htwo. discriminate Htwo. }
  destruct (type_is self "ethernet") eqn:Eeth.
  { apply type_is_true in Eeth.
    pose proof (create_calls_ethernet self w Eeth) as H.
    destruct (mtu_or_dns_set self).
    - destruct H as [r ->]. eauto.
    - rewrite H in Htwo. discriminate Htwo. }
  pose proof (create_calls_other self w Eteam Eslave Ebond Eeth) as H.
  rewrite Htwo in H. cbn in H. lia.
Qed.
End CreateCalls.


(** C2 as stated: whenever the create runs the modify step, its calls are the
    create list, the modify list and the activation. A team-slave create with
    an MTU runs the modify step and never activates. *)
Lemma team_slave_create_never_activates :
  ~ (two_phase Host.run_command (Examples.nmcli_of Examples.team_slave_mtu) (Host.quiet [])
     -> create_modify_activate Host.run_command
          (Examples.nmcli_of Examples.team_slave_mtu) (Host.quiet [])).
Proof.
  intros H.
  assert (Htwo : two_phase Host.run_command
                   (Examples.nmcli_of Examples.team_slave_mtu) (Host.quiet [])).
  { eexists. vm_compute. reflexivity. }
  specialize (H Htwo). vm_compute in H. discriminate H.
Qed.

(** The ethernet create of the design's example with two DNS servers: the
    calls start with create, modify, activation. *)
Lemma two_phase_sequence_my_eth1_dns :
  exists rest,
    create_calls Host.run_command (Examples.nmcli_of Examples.my_eth1_dns) (Host.quiet [])
    = Argv (create_command (Examples.nmcli_of Examples.my_eth1_dns))
      :: Argv (modify_command (Examples.nmcli_of Examples.my_eth1_dns))
      :: Argv (up_command (Examples.nmcli_of Examples.my_eth1_dns)) :: rest.
Proof.
  apply (two_phase_sequence Host.World Host.run_command
           (Examples.nmcli_of Examples.my_eth1_dns) (Host.quiet [])).
  eexists. vm_compute. reflexivity.
Defined.

(** ** Attribute pairs *)

Lemma pairs_when_set {A} (g : option A) k v rest :
  pairs (when_set g [k; v] ++ rest) = guarded_pair g k v ++ pairs rest.
Proof. destruct g; reflexivity. Qed.

Lemma autoconnect_pair_when_set self :
  autoconnect_pair self = when_set (yes_no self) [Some "autoconnect"; yes_no self].
Proof. unfold autoconnect_pair, yes_no. destruct (autoconnect self); reflexivity. Qed.

Lemma no_key_nil key : no_key [] key.
Proof. intros v []. Qed.

Lemma no_key_cons k x ps key :
  k <> key -> no_key ps key -> no_key ((Some k, x) :: ps) key.
Proof.
  intros Hk H v [E|Hin]; [congruence|]. exact (H v Hin).
Qed.

Lemma no_key_guarded {A} (g : option A) k x ps key :
  k <> key -> no_key ps key -> no_key (guarded_pair g (Some k) x ++ ps) key.
Proof.
  intros Hk H. destruct g; cbn; [apply no_key_cons|]; assumption.
Qed.

Lemma renders_cons_other k x ps key value :
  k <> key -> renders ps key value -> renders ((Some k, x) :: ps) key value.
Proof.
  intros Hk H v. rewrite <- (H v). cbn. split; [intros [E|Hin]|]; auto. congruence.
Qed.

Lemma renders_guarded_other {A} (g : option A) k x ps key value :
  k <> key -> renders ps key value -> renders (guarded_pair g (Some k) x ++ ps) key value.
Proof.
  intros Hk H. destruct g; cbn; [apply renders_cons_other|]; assumption.
Qed.

Lemma renders_guarded_here (g : option string) ps key :
  no_key ps key -> renders (guarded_pair g (Some key) g ++ ps) key g.
Proof.
  intros H v. destruct g as [s|]; cbn.
  - split.
    + intros [E|Hin]; [|destruct (H v Hin)]. exists s. split; congruence.
    + intros (s' & E & ->). left. injection E as ->. reflexivity.
  - split; [intros Hin; destruct (H v Hin)|intros (s & E & _); discriminate E].
Qed.

(** Walks a list of pairs to the block of [key] and past it. *)
Ltac find_key :=
  repeat first
    [ apply renders_cons_other; [discriminate|]
    | apply renders_guarded_other; [discriminate|]
    | apply renders_guarded_here ];
  repeat first
    [ apply no_key_guarded; [discriminate|]
    | apply no_key_cons; [discriminate|]
    | apply no_key_nil ].

(** Puts the pairs of a synthesized list in the form [find_key] walks. *)
Ltac expose_pairs :=
  rewrite ?autoconnect_pair_when_set;
  match goal with
  | |- context [pairs ?l] => rewrite <- (app_nil_r l)
  end;
  cbn [skipn app pairs];
  rewrite <- ?app_assoc;
  rewrite ?pairs_when_set;
  cbn [pairs].

(** Settles [renders] for each field of the table in [Hin]. *)
Ltac each_field Hin :=
  cbn in Hin;
  repeat (destruct Hin as [Hin|Hin]; [injection Hin as <- <-; find_key|]);
  destruct Hin.

Lemma create_renders self ty key get :
  type self = Some ty -> conn_name self <> None ->
  In (key, get) (emitted_on_create ty) -> renders (create_pairs self) key (get self).
Proof.
  intros Hty Hname Hin.
  destruct (conn_name self) as [n|] eqn:En; [clear Hname|congruence].
  unfold emitted_on_create in Hin. unfold create_pairs, create_command, type_is.
  rewrite Hty.
  destruct (String.eqb ty "team") eqn:E1.
  { unfold create_connection_team, con_name_value, ifname_value. rewrite En.
    destruct (ifname self); cbn [when_set]; expose_pairs; each_field Hin. }
  destruct (String.eqb ty "team-slave") eqn:E2.
  { apply String.eqb_eq in E2. subst ty. destruct Hin. }
  destruct (String.eqb ty "bond") eqn:E3.
  { unfold create_connection_bond, con_name_value, ifname_value. rewrite En.
    destruct (ifname self); cbn [when_set]; expose_pairs; each_field Hin. }
  destruct (String.eqb ty "bond-slave") eqn:E4.
  { apply String.eqb_eq in E4. subst ty. destruct Hin. }
  destruct (String.eqb ty "ethernet") eqn:E5.
  { unfold create_connection_ethernet, con_name_value, ifname_value. rewrite En.
    cbn [String.eqb Ascii.eqb Bool.eqb].
    destruct (ifname self); cbn [when_set]; expose_pairs; each_field Hin. }
  destruct (String.eqb ty "bridge") eqn:E6.
  { apply String.eqb_eq in E6. subst ty. destruct Hin. }
  destruct (String.eqb ty "vlan") eqn:E7.
  { apply String.eqb_eq in E7. subst ty. destruct Hin. }
  destruct (String.eqb ty "generic") eqn:E8; [|destruct Hin].
  unfold create_connection_ethernet, con_name_value, ifname_value. rewrite En.
  cbn [String.eqb Ascii.eqb Bool.eqb].
  destruct (ifname self); cbn [when_set]; expose_pairs; each_field Hin.
Qed.

Lemma modify_renders self ty key get :
  type self = Some ty ->
  In (key, get) (emitted_on_modify ty) -> renders (modify_pairs self) key (get self).
Proof.
  intros Hty Hin.
  unfold emitted_on_modify in Hin. unfold modify_pairs, modify_command, type_is.
  rewrite Hty.
  destruct (String.eqb ty "team") eqn:E1.
  { unfold modify_connection_team. expose_pairs; each_field Hin. }
  destruct (String.eqb ty "team-slave") eqn:E2.
  { unfold modify_connection_team_slave. expose_pairs; each_field Hin. }
  destruct (String.eqb ty "bond") eqn:E3.
  { unfold modify_connection_bond. expose_pairs; each_field Hin. }
  destruct (String.eqb ty "bond-slave") eqn:E4.
  { apply String.eqb_eq in E4. subst ty. destruct Hin. }
  destruct (String.eqb ty "ethernet") eqn:E5.
  { unfold modify_connection_ethernet. cbn [String.eqb Ascii.eqb Bool.eqb].
    expose_pairs; each_field Hin. }
  destruct (String.eqb ty "bridge") eqn:E6.
  { apply String.eqb_eq in E6. subst ty. destruct Hin. }
  destruct (String.eqb ty "vlan") eqn:E7.
  { apply String.eqb_eq in E7. subst ty. destruct Hin. }
  destruct (String.eqb ty "generic") eqn:E8; [|destruct Hin].
  unfold modify_connection_ethernet. cbn [String.eqb Ascii.eqb Bool.eqb].
  expose_pairs; each_field Hin.
Qed.

(** X25. For every connection type and every optional field its create or
    modify synthesizer emits under the field's own guard (the tables
    [emitted_on_create] and [emitted_on_modify]), the sequence holds the
    field's key-value pair exactly when the field is non-null and no pair
    with that key when it is null. *)
Theorem optional_fields_rendered self ty key get :
  type self = Some ty -> conn_name self <> None ->
  (In (key, get) (emitted_on_create ty) -> renders (create_pairs self) key (get self))
  /\ (In (key, get) (emitted_on_modify ty) -> renders (modify_pairs self) key (get self)).
Proof.
  intros Hty Hname. split; intros Hin.
  - eapply create_renders; eassumption.
  - eapply modify_renders; eassumption.
Qed.

(** The ethernet create of the design's example holds the pair
    [ip4 192.0.2.100/24], its modify list would too. *)
Lemma optional_fields_rendered_my_eth1 :
  renders (create_pairs (Examples.nmcli_of Examples.my_eth1)) "ip4" (Some "192.0.2.100/24")
  /\ renders (modify_pairs (Examples.nmcli_of Examples.my_eth1)) "ipv4.address"
       (Some "192.0.2.100/24").
Proof.
  destruct (optional_fields_rendered (Examples.nmcli_of Examples.my_eth1)
              "ethernet" "ip4" ip4 eq_refl) as [Hc _]; [discriminate|].
  destruct (optional_fields_rendered (Examples.nmcli_of Examples.my_eth1)
              "ethernet" "ipv4.address" ip4 eq_refl) as [_ Hm]; [discriminate|].
  split.
  - apply Hc. vm_compute. auto.
  - apply Hm. vm_compute. auto.
Defined.

(** C3, on the code. A null field gets a token pair in two places where a
    block tests another attribute than the one it appends: a bond with a
    down delay and no up delay has the pair [updelay], [None] in its create
    list (the blocks of [updelay], [arp-interval] and [arp-ip-target] test
    the down delay), and a bond-slave with no master has the pair [master],
    [None] (the block tests the name). *)
Theorem null_fields_are_emitted :
  (updelay (Examples.nmcli_of Examples.bond_downdelay) = None
   /\ In (Some "updelay", None)
        (create_pairs (Examples.nmcli_of Examples.bond_downdelay)))
  /\ (master (Examples.nmcli_of Examples.bond_slave_no_master) = None
      /\ In (Some "master", None)
           (create_pairs (Examples.nmcli_of Examples.bond_slave_no_master))).
Proof.
  repeat split; try reflexivity; vm_compute; tauto.
Qed.

(** ** DNS servers *)

Lemma dns4_init m : dns4 (Nmcli_init m) = joined_dns (param_dns4 (params m)).
Proof.
  unfold Nmcli_init, joined_dns; cbn.
  destruct (param_dns4 (params m)) as [[|e es]|]; reflexivity.
Qed.

(** C8, as amended. In the modify list of a team, bond, ethernet or generic
    connection, [ipv4.dns] carries every entry of a non-empty dns4 list, in
    input order, joined by single spaces (and is absent for an empty or unset
    list); [ipv6.dns] carries the dns6 string as given. No cap applies. *)
Theorem dns_rendered_in_full m ty :
  type (Nmcli_init m) = Some ty -> In ty dns_types ->
  renders (modify_pairs (Nmcli_init m)) "ipv4.dns" (joined_dns (param_dns4 (params m)))
  /\ renders (modify_pairs (Nmcli_init m)) "ipv6.dns" (param_dns6 (params m)).
Proof.
  intros Hty Hin. rewrite <- dns4_init.
  change (param_dns6 (params m)) with (dns6 (Nmcli_init m)).
  split.
  - apply (modify_renders _ ty "ipv4.dns" dns4 Hty).
    cbn in Hin. decompose [or] Hin; subst; cbn; tauto.
  - apply (modify_renders _ ty "ipv6.dns" dns6 Hty).
    cbn in Hin. decompose [or] Hin; subst; cbn; tauto.
Qed.

(** The design's example with two DNS servers. *)
Lemma dns_rendered_in_full_my_eth1_dns :
  renders (modify_pairs (Examples.nmcli_of Examples.my_eth1_dns)) "ipv4.dns"
    (Some "192.0.2.53 198.51.100.53")
  /\ renders (modify_pairs (Examples.nmcli_of Examples.my_eth1_dns)) "ipv6.dns" None.
Proof.
  apply (dns_rendered_in_full (Host.ansible Examples.my_eth1_dns false) "ethernet").
  - reflexivity.
  - cbn. tauto.
Defined.

(** C8 as stated caps the list at three entries. A list of four is neither
    refused nor cut: the modify list carries all four. *)
Lemma four_dns_servers_not_capped :
  ~ renders (modify_pairs (Examples.nmcli_of Examples.my_eth1_dns_four)) "ipv4.dns"
      (option_map capped_dns (param_dns4 Examples.my_eth1_dns_four)).
Proof.
  intros H.
  destruct (H (Some "192.0.2.53 198.51.100.53 203.0.113.53 192.0.2.54")) as [Hin _].
  destruct Hin as (s & E & E').
  - vm_compute. auto.
  - vm_compute in E. injection E' as <-. discriminate E.
Qed.

(** ** The existence check *)

Lemma existsb_connection_list n configs :
  existsb (name_equals_item (Some n)) (connection_list configs) = item_matches n configs.
Proof.
  induction configs as [|c configs IH]; [reflexivity|].
  cbn. fold (connection_list configs). rewrite IH.
  unfold item_matches. rewrite !orb_assoc. reflexivity.
Qed.

(** What the check computes: the name equals the name, the UUID or the type
    of some record. *)
Lemma connection_exists_items {World} (dbus_settings : World -> string + list ConnectionConfig)
    self n configs (s : Machine World) :
  conn_name self = Some n -> dbus_settings (world s) = inr configs ->
  connection_exists dbus_settings self s = (Next (item_matches n configs), s).
Proof.
  intros Hn Hd. unfold connection_exists, bind, list_connection_info, ret.
  rewrite Hd, Hn, existsb_connection_list. reflexivity.
Qed.

(** C4, on the code. With the single record [eth0] of type [802-3-ethernet]
    in the inventory, the check answers true for the name [802-3-ethernet],
    which is the name of no record. *)
Theorem connection_exists_matches_a_type :
  fst (connection_exists Host.dbus_settings
         (Examples.nmcli_of Examples.named_like_a_type)
         (Examples.start (Host.quiet [Host.eth0]))) = Next true
  /\ name_matches "802-3-ethernet" [Host.eth0] = false.
Proof.
  split; vm_compute; reflexivity.
Qed.

(** ** Runs of the reconciler *)

Section Runs.
Variable World : Type.
Variable run_command : command -> World -> cmd_result * World.
Variable dbus_settings : World -> string + list ConnectionConfig.

Lemma checks_pass_inv nmcli :
  checks_pass nmcli = true ->
  is_None (conn_name nmcli) = false
  /\ type_is nmcli "team-slave" && is_None (master nmcli) = false
  /\ type_is nmcli "team-slave" && is_None (ifname nmcli) = false.
Proof.
  unfold checks_pass, is_None. intros H.
  apply andb_true_iff in H as [H H3]. apply andb_true_iff in H as [H1 H2].
  rewrite H1. apply negb_true_iff in H2, H3. auto.
Qed.

(** C10. With state absent and the name found (not in check mode), the run
    calls [con down] then [con del]; the report is built from the result of
    the removal alone: exit code 0 gives [changed=true] with the removal's
    output, any other exit code a failure carrying it - whatever the
    deactivation returned. *)
Theorem removal_ignores_deactivation m w r1 w1 rc2 out2 err2 w2 :
  checks_pass (Nmcli_init m) = true ->
  state (Nmcli_init m) = "absent" ->
  check_mode m = false ->
  listed dbus_settings (conn_name (Nmcli_init m)) w ->
  run_command (Argv (down_command (Nmcli_init m))) w = (r1, w1) ->
  run_command (Argv (remove_command (Nmcli_init m))) w1 = ((rc2, out2, err2), w2) ->
  run true true run_command dbus_settings m w
  = (if Z.eqb rc2 0
     then exit_json (report_of (Nmcli_init m) None None true (rc2, out2, err2))
     else fail_json {| f_msg := err2;
                       f_name := Some ("No Connection named "
                                       ++ percent_s (conn_name (Nmcli_init m))
                                       ++ " exists")%string;
                       f_rc := Some rc2; f_details := None |},
     {| world := w2;
        calls := [Argv (down_command (Nmcli_init m)); Argv (remove_command (Nmcli_init m))] |}).
Proof.
  intros Hchk Hst Hcm (configs & Hd & Hex) Hdown Hrem.
  apply checks_pass_inv in Hchk as (H1 & H2 & H3).
  unfold run, main. cbn zeta.
  remember (Nmcli_init m) as nmcli eqn:En. clear En.
  unfold connection_exists, list_connection_info, down_connection,
    remove_connection, execute_command, when_, ret, halt, bind.
  cbn [negb]. rewrite H1, H2, H3, Hst. cbn [String.eqb Ascii.eqb Bool.eqb world calls].
  rewrite Hd, Hex, Hcm. cbn [world calls app]. rewrite Hdown. cbn [world calls app].
  rewrite Hrem. destruct r1 as [[rc1 out1] err1].
  destruct rc2; cbn -[String.append]; rewrite ?Hst; reflexivity.
Qed.
(** C7. For the ethernet example with no matching record in the inventory,
    the create list is the binary followed by the tokens of the design, the
    run makes that one call and no other (no modify step, no activation) and,
    the call exiting with code 0, reports [changed=true]. *)
Theorem my_eth1_is_created bin w out1 err1 w1 :
  let m := {| params := Examples.my_eth1; check_mode := false; get_bin_path := bin |} in
  unlisted dbus_settings (Some "my-eth1") w ->
  run_command (Argv (Some bin :: Examples.my_eth1_tokens)) w = ((0%Z, out1, err1), w1) ->
  create_command (Nmcli_init m) = Some bin :: Examples.my_eth1_tokens
  /\ run true true run_command dbus_settings m w
     = (exit_json (report_of (Nmcli_init m) None
                     (Some "Connection my-eth1 of Type ethernet is being added")
                     true (0%Z, out1, err1)),
        {| world := w1; calls := [Argv (Some bin :: Examples.my_eth1_tokens)] |}).
Proof.
  intros m (configs & Hd & Hex) Hrun. split; [reflexivity|].
  unfold run, main, m. cbn zeta.
  unfold connection_exists, list_connection_info, create_connection, modify_connection,
    up_connection, execute_command, when_, ret, halt, bind.
  repeat (progress (cbn -[String.append]; rewrite ?Hd, ?Hex)).
  match goal with
  | |- context [run_command ?c w] =>
      change (run_command c w = ((0%Z, out1, err1), w1)) in Hrun
  end.
  rewrite Hrun. reflexivity.
Qed.
(** A create only adds to the log of calls. *)
Lemma create_connection_extends self (s : Machine World) :
  exists rest, calls (snd (create_connection run_command self s)) = calls s ++ rest.
Proof.
  unfold create_connection.
  by_type self;
    destruct (mtu self), (dns4 self), (dns6 self); cbn;
    run_calls run_command; rewrite <- ?app_assoc;
    solve [eexists; reflexivity | exists []; rewrite app_nil_r; reflexivity].
Qed.

Lemma modify_list_starts self ty :
  type self = Some ty -> In ty modify_types ->
  exists attributes,
    modify_command self
    = [Some (nmcli_bin self); Some "con"; Some "mod"; conn_name self] ++ attributes.
Proof.
  intros Hty Hin. unfold modify_command, type_is. rewrite Hty.
  cbn in Hin. decompose [or] Hin; try contradiction; subst ty;
    cbn [String.eqb Ascii.eqb Bool.eqb]; eexists; reflexivity.
Qed.

(** C9, as amended. With state present and the name found, outside check
    mode, the checks passed and the type one of team, team-slave, bond,
    bond-slave, ethernet and generic, the first Executor call of the run is a
    Modify operation: the binary, [con], [mod], the name, then the attributes
    of the type's modify list, each of its fields paired with the value of
    the parameters. When that call exits with code 0 and the name is still
    listed when the inventory is read again, it is the only call and the run
    reports [changed=true] - for any settings of the records: they are never
    compared with the parameters. *)
Theorem existing_connection_is_modified m w ty rc1 out1 err1 w1 :
  checks_pass (Nmcli_init m) = true ->
  state (Nmcli_init m) = "present" ->
  check_mode m = false ->
  type (Nmcli_init m) = Some ty ->
  In ty modify_types ->
  listed dbus_settings (conn_name (Nmcli_init m)) w ->
  run_command (Argv (modify_command (Nmcli_init m))) w = ((rc1, out1, err1), w1) ->
  modify_issued (Nmcli_init m) (calls (snd (run true true run_command dbus_settings m w)))
  /\ (exists rest,
        calls (snd (run true true run_command dbus_settings m w))
        = Argv (modify_command (Nmcli_init m)) :: rest)
  /\ (forall key get,
        In (key, get) (emitted_on_modify ty) ->
        renders (modify_pairs (Nmcli_init m)) key (get (Nmcli_init m)))
  /\ (rc1 = 0%Z -> listed dbus_settings (conn_name (Nmcli_init m)) w1 ->
      run true true run_command dbus_settings m w
      = (exit_json (report_of (Nmcli_init m)
                      (Some "Connections do exist so we are modifying them") None
                      true (rc1, out1, err1)),
         {| world := w1; calls := [Argv (modify_command (Nmcli_init m))] |})).
Proof.
  intros Hchk Hst Hcm Hty Hin (configs & Hd & Hex) Hrun.
  destruct (modify_list_starts _ _ Hty Hin) as [attributes Hstart].
  assert (Hfirst : exists rest,
             calls (snd (run true true run_command dbus_settings m w))
             = Argv (modify_command (Nmcli_init m)) :: rest
             /\ (rc1 = 0%Z -> listed dbus_settings (conn_name (Nmcli_init m)) w1 ->
                 run true true run_command dbus_settings m w
                 = (exit_json (report_of (Nmcli_init m)
                                 (Some "Connections do exist so we are modifying them")
                                 None true (rc1, out1, err1)),
                    {| world := w1; calls := [Argv (modify_command (Nmcli_init m))] |}))).
  { apply checks_pass_inv in Hchk as (H1 & H2 & H3).
    clear Hty Hin. unfold run, main. cbn zeta.
    remember (Nmcli_init m) as nmcli eqn:En. clear En.
    assert (Htruthy : truthy_command (Argv (modify_command nmcli)) = true).
    { rewrite Hstart. reflexivity. }
    clear Hstart.
    unfold connection_exists, list_connection_info, modify_connection,
      execute_command, when_, ret, halt, bind.
    cbn [negb]. rewrite H1, H2, H3, Hst, Htruthy.
    cbn [String.eqb Ascii.eqb Bool.eqb world calls].
    rewrite Hd, Hex, Hcm. cbn [world calls app]. rewrite Hrun. cbn [world calls app].
    destruct (dbus_settings w1) as [e|configs1] eqn:Hd1.
    { eexists. split; [cbn; reflexivity|].
      intros _ (c1 & Hc1 & _). congruence. }
    destruct (existsb _ (connection_list configs1)) eqn:Hex1; cbn [negb].
    - eexists. split; [destruct (rc_failed _); cbn; reflexivity|].
      intros -> _. cbn -[String.append]. rewrite ?Hst. reflexivity.
    - pose proof (create_connection_extends nmcli
                    {| world := w1; calls := [Argv (modify_command nmcli)] |}) as [rest Hc].
      exists rest. split.
      + destruct (create_connection run_command nmcli _) as [[r|rep] s']; cbn in Hc |- *.
        * destruct (rc_failed _); cbn; rewrite Hc; reflexivity.
        * rewrite Hc; reflexivity.
      + intros _ (c1 & Hc1 & Hx1). rewrite Hd1 in Hc1. injection Hc1 as <-. congruence. }
  destruct Hfirst as (rest & Hcalls & Hzero).
  split; [|split; [|split]].
  - exists attributes, rest. rewrite Hcalls, Hstart. reflexivity.
  - exists rest. exact Hcalls.
  - intros key get Hk. eapply modify_renders; eassumption.
  - exact Hzero.
Qed.

(** A create or a modify that ends the run ends it with a failure. *)
Lemma create_connection_halts self (s s' : Machine World) rep :
  create_connection run_command self s = (Halt rep, s') -> exists f, rep = fail_json f.
Proof.
  unfold create_connection.
  by_type self;
    destruct (mtu self), (dns4 self), (dns6 self); cbn;
    run_calls run_command; intros H; inversion H; eexists; reflexivity.
Qed.

Lemma modify_connection_halts self (s s' : Machine World) rep :
  modify_connection run_command self s = (Halt rep, s') -> exists f, rep = fail_json f.
Proof.
  unfold modify_connection.
  destruct (truthy_command _); run_calls run_command; intros H; inversion H;
    eexists; reflexivity.
Qed.

(** Case analysis on what a run branches on next. *)
Ltac branch :=
  match goal with
  | |- context [match dbus_settings ?w with inl _ => _ | inr _ => _ end] =>
      destruct (dbus_settings w) eqn:?
  | |- context [let (_, _) := run_command ?c ?w in _] =>
      destruct (run_command c w) as [[[? ?] ?] ?] eqn:?
  | |- context [if existsb ?f ?l then _ else _] => destruct (existsb f l) eqn:?
  | |- context [if negb (existsb ?f ?l) then _ else _] => destruct (existsb f l) eqn:?
  | |- context [if (?z =? 0)%Z then _ else _] => destruct (z =? 0)%Z eqn:?
  | |- context [if negb (?z =? 0)%Z then _ else _] => destruct (z =? 0)%Z eqn:?
  end.

(** Closes a goal in which both runs have ended. *)
Ltac ended :=
  cbn -[String.append];
  repeat split; try reflexivity;
  intros ? Heq; try discriminate Heq; injection Heq as <-;
  cbn -[String.append];
  first [ left; reflexivity
        | right; reflexivity
        | eexists; split; [reflexivity|]; eexists; split; reflexivity ].

(** C6, as amended. In check mode a run makes no Executor call at all.
    Whenever the same run outside check mode ends with a result, that result
    carries a [changed] value and the check-mode run ends with a result
    carrying the same value. When the run outside check mode ends in a
    failure or dies of an exception, the check-mode run either ends the same
    way (the cause came before any operation) or reports [changed=true]. *)
Theorem dry_run_report have_dbus have_nm_client m w :
  calls (snd (run have_dbus have_nm_client run_command dbus_settings
                (with_check_mode true m) w)) = []
  /\ (forall r,
        fst (run have_dbus have_nm_client run_command dbus_settings
               (with_check_mode false m) w) = exit_json r ->
        exists b,
          r_changed r = Some b
          /\ exists r',
               fst (run have_dbus have_nm_client run_command dbus_settings
                      (with_check_mode true m) w) = exit_json r'
               /\ r_changed r' = Some b)
  /\ (forall f,
        fst (run have_dbus have_nm_client run_command dbus_settings
               (with_check_mode false m) w) = fail_json f ->
        fst (run have_dbus have_nm_client run_command dbus_settings
               (with_check_mode true m) w) = fail_json f
        \/ fst (run have_dbus have_nm_client run_command dbus_settings
                  (with_check_mode true m) w) = exit_json changed_only)
  /\ (forall e,
        fst (run have_dbus have_nm_client run_command dbus_settings
               (with_check_mode false m) w) = traceback e ->
        fst (run have_dbus have_nm_client run_command dbus_settings
               (with_check_mode true m) w) = traceback e
        \/ fst (run have_dbus have_nm_client run_command dbus_settings
                  (with_check_mode true m) w) = exit_json changed_only).
Proof.
  unfold run, main. cbn zeta.
  unfold down_connection, remove_connection.
  remember (modify_connection run_command (Nmcli_init (with_check_mode false m)))
    as modify eqn:Emodify.
  remember (create_connection run_command (Nmcli_init (with_check_mode false m)))
    as create eqn:Ecreate.
  remember (modify_connection run_command (Nmcli_init (with_check_mode true m)))
    as modify' eqn:Emodify'.
  remember (create_connection run_command (Nmcli_init (with_check_mode true m)))
    as create' eqn:Ecreate'.
  clear Emodify' Ecreate'.
  unfold connection_exists, list_connection_info, execute_command, when_, ret, halt,
    bind, type_is, rc_failed.
  cbn [Nmcli_init with_check_mode conn_name state type master ifname params check_mode
       world calls down_command remove_command].
  destruct have_dbus, have_nm_client; cbn [negb]; try solve [ended].
  destruct (param_conn_name (params m)) as [n|]; cbn [is_None is_not_None negb];
    try solve [ended].
  destruct (param_type (params m)) as [t|];
    [destruct (String.eqb t "team-slave")|];
    destruct (param_master (params m)), (param_ifname (params m));
    cbn [is_None is_not_None negb andb]; try solve [ended].
  all: destruct (String.eqb (param_state (params m)) "absent");
    [|destruct (String.eqb (param_state (params m)) "present")];
    cbn [world calls]; try solve [ended].
  all: subst modify create.
  all: repeat (first
         [ branch
         | match goal with
           | |- context [modify_connection ?r ?self ?s] =>
               let E := fresh "E" in
               destruct (modify_connection r self s) as [[[[? ?] ?]|?] ?] eqn:E;
               [|apply modify_connection_halts in E; destruct E as [? ->]]
           | |- context [create_connection ?r ?self ?s] =>
               let E := fresh "E" in
               destruct (create_connection r self s) as [[[[? ?] ?]|?] ?] eqn:E;
               [|apply create_connection_halts in E; destruct E as [? ->]]
           end ];
         cbn -[String.append];
         try solve [ended]).
Qed.

(** A team-slave with no master is refused before any call. *)
Lemma team_slave_without_master m w :
  conn_name (Nmcli_init m) <> None ->
  type (Nmcli_init m) = Some "team-slave" ->
  master (Nmcli_init m) = None ->
  run true true run_command dbus_settings m w
  = (fail_json (failure "Please specify a name for the master"),
     {| world := w; calls := [] |}).
Proof.
  intros Hn Hty Hm. unfold run, main. cbn zeta.
  remember (Nmcli_init m) as nmcli eqn:En. clear En.
  unfold when_, ret, halt, bind, type_is. rewrite Hty, Hm.
  destruct (conn_name nmcli); [reflexivity|congruence].
Qed.
End Runs.

(** C5, on the code. A bond-slave with no master passes the checks (they
    test team-slave only): the create list ends with ['master', None], it is
    handed to the Executor and the run reports [changed=true]. *)
Theorem bond_slave_without_master_is_executed :
  let outcome := run true true Host.run_command Host.dbus_settings
                   (Host.ansible Examples.bond_slave_no_master false) (Host.quiet []) in
  verdict (fst outcome) = Some true
  /\ calls (snd outcome)
     = [Argv [Some "/usr/bin/nmcli"; Some "connection"; Some "add"; Some "type";
              Some "bond-slave"; Some "con-name"; Some "bond-em1"; Some "ifname";
              Some "em1"; Some "master"; None]].
Proof.
  vm_compute. split; reflexivity.
Qed.

(** The example of the design on a host whose inventory holds [eth0] only. *)
Lemma my_eth1_is_created_next_to_eth0 :
  run true true Host.run_command Host.dbus_settings
    (Host.ansible Examples.my_eth1 false) (Host.quiet [Host.eth0])
  = (exit_json (report_of (Examples.nmcli_of Examples.my_eth1) None
                  (Some "Connection my-eth1 of Type ethernet is being added")
                  true (0%Z, "", "")),
     {| world := Host.quiet [Host.eth0];
        calls := [Argv (Some "/usr/bin/nmcli" :: Examples.my_eth1_tokens)] |}).
Proof.
  apply (my_eth1_is_created Host.World Host.run_command Host.dbus_settings
           "/usr/bin/nmcli" (Host.quiet [Host.eth0]) "" "" (Host.quiet [Host.eth0])).
  - exists [Host.eth0]. split; reflexivity.
  - reflexivity.
Defined.

(** [eth0] is listed, the modify call succeeds: one call, [changed=true]. *)
Lemma existing_connection_is_modified_eth0 :
  run true true Host.run_command Host.dbus_settings
    (Host.ansible Examples.eth0_present false) (Host.quiet [Host.eth0])
  = (exit_json (report_of (Examples.nmcli_of Examples.eth0_present)
                  (Some "Connections do exist so we are modifying them") None
                  true (0%Z, "", "")),
     {| world := Host.quiet [Host.eth0];
        calls := [Argv (modify_command (Examples.nmcli_of Examples.eth0_present))] |}).
Proof.
  destruct (existing_connection_is_modified Host.World Host.run_command
              Host.dbus_settings (Host.ansible Examples.eth0_present false)
              (Host.quiet [Host.eth0]) "ethernet" 0%Z "" "" (Host.quiet [Host.eth0]))
    as (_ & _ & _ & H).
  - reflexivity.
  - reflexivity.
  - reflexivity.
  - reflexivity.
  - cbn. tauto.
  - exists [Host.eth0]. split; reflexivity.
  - reflexivity.
  - apply H; [reflexivity|]. exists [Host.eth0]. split; reflexivity.
Defined.

(** C9 as stated: every present spec whose name is found gets a Modify
    operation. The name [eth0] is found, the state is present and no type
    is given: the run makes no call at all (it ends in the failure that asks
    for a type). *)
Lemma typeless_connection_is_not_modified :
  ~ (state (Examples.nmcli_of MoreExamples.untyped_eth0) = "present" ->
     listed Host.dbus_settings (conn_name (Examples.nmcli_of MoreExamples.untyped_eth0))
       (Host.quiet [Host.eth0]) ->
     modify_issued (Examples.nmcli_of MoreExamples.untyped_eth0)
       (calls (snd (run true true Host.run_command Host.dbus_settings
                      (Host.ansible MoreExamples.untyped_eth0 false)
                      (Host.quiet [Host.eth0]))))).
Proof.
  intros H. destruct H as (attributes & rest & E).
  - reflexivity.
  - exists [Host.eth0]. split; reflexivity.
  - vm_compute in E. discriminate E.
Qed.

(** C6 as stated: the check-mode run reports the [changed] value of the run
    outside check mode. For a new name with no type, the check-mode run
    reports [changed=true]; the run outside check mode makes no call either
    and reports no value: it ends in the failure that asks for a type. *)
Lemma dry_run_of_typeless_create :
  ~ (verdict (fst (run true true Host.run_command Host.dbus_settings
                     (with_check_mode true (Host.ansible MoreExamples.untyped_new false))
                     (Host.quiet [])))
     = verdict (fst (run true true Host.run_command Host.dbus_settings
                       (with_check_mode false (Host.ansible MoreExamples.untyped_new false))
                       (Host.quiet [])))).
Proof.
  vm_compute. discriminate.
Qed.

(** The deactivation of [eth0] fails with exit code 10, the removal exits
    with 0: the run reports [changed=true] and nothing of the failure. *)
Lemma removal_ignores_deactivation_failure :
  run true true Host.run_command Host.dbus_settings
    (Host.ansible Examples.eth0_absent false) Examples.down_fails
  = (exit_json {| r_conn_name := Some "eth0"; r_state := Some "absent";
                  r_Exists := None; r_Connection := None; r_changed := Some true;
                  r_stdout := None; r_stderr := None |},
     {| world := Host.quiet [Host.eth0];
        calls := [Argv [Some "/usr/bin/nmcli"; Some "con"; Some "down"; Some "eth0"];
                  Argv [Some "/usr/bin/nmcli"; Some "con"; Some "del"; Some "eth0"]] |}).
Proof.
  apply (removal_ignores_deactivation Host.World Host.run_command Host.dbus_settings
           (Host.ansible Examples.eth0_absent false) Examples.down_fails
           (10%Z, "", "Error: 'eth0' is not an active connection.")
           {| Host.inventory := [Host.eth0]; Host.replies := [(0%Z, "", "")] |}
           0%Z "" "" (Host.quiet [Host.eth0])).
  - reflexivity.
  - reflexivity.
  - reflexivity.
  - exists [Host.eth0]. split; reflexivity.
  - reflexivity.
  - reflexivity.
Defined.

(** ** The last call of a create with an activation, on a concrete input *)

(** The ethernet create with two DNS servers: after the activation, the
    tuple it returned is handed to the Executor as a fourth call. *)
Lemma my_eth1_dns_fourth_call :
  create_calls Host.run_command (Examples.nmcli_of Examples.my_eth1_dns) (Host.quiet [])
  = [Argv (create_command (Examples.nmcli_of Examples.my_eth1_dns));
     Argv (modify_command (Examples.nmcli_of Examples.my_eth1_dns));
     Argv (up_command (Examples.nmcli_of Examples.my_eth1_dns));
     Returned (0%Z, "", "")].
Proof.
  vm_compute. reflexivity.
Qed.

(** * Further properties of the code *)

(** ** The reconciler, branch by branch *)

Section MoreRuns.
Variable World : Type.
Variable run_command : command -> World -> cmd_result * World.
Variable dbus_settings : World -> string + list ConnectionConfig.

(** Opens [main] after the checks passed, for the object [nmcli]. *)
Ltac enter_main Hchk nmcli :=
  let H1 := fresh "H1" in
  let H2 := fresh "H2" in
  let H3 := fresh "H3" in
  apply checks_pass_inv in Hchk as (H1 & H2 & H3);
  unfold run, main; cbn zeta;
  match goal with
  | |- context [Nmcli_init ?m] => remember (Nmcli_init m) as nmcli eqn:En; clear En
  end;
  unfold connection_exists, list_connection_info, when_, ret, halt, bind;
  cbn [negb]; rewrite H1, H2, H3.

(** X1. With state absent and the name not found, the run makes no Executor
    call and reports [changed=false], in check mode or not. *)
Theorem absent_unlisted_is_noop m w :
  checks_pass (Nmcli_init m) = true ->
  state (Nmcli_init m) = "absent" ->
  unlisted dbus_settings (conn_name (Nmcli_init m)) w ->
  run true true run_command dbus_settings m w
  = (exit_json {| r_conn_name := conn_name (Nmcli_init m); r_state := Some "absent";
                  r_Exists := None; r_Connection := None; r_changed := Some false;
                  r_stdout := None; r_stderr := None |},
     {| world := w; calls := [] |}).
Proof.
  intros Hchk Hst (configs & Hd & Hex).
  enter_main Hchk nmcli. rewrite Hst.
  cbn [String.eqb Ascii.eqb Bool.eqb world calls]. rewrite Hd, Hex. reflexivity.
Qed.

(** X2. In check mode with state present, once the inventory could be read,
    the run reports [changed=true] and nothing else, without any Executor
    call - whether the name is listed or not. *)
Theorem present_check_mode_reports_changed m w configs :
  checks_pass (Nmcli_init m) = true ->
  state (Nmcli_init m) = "present" ->
  check_mode m = true ->
  dbus_settings w = inr configs ->
  run true true run_command dbus_settings m w
  = (exit_json changed_only, {| world := w; calls := [] |}).
Proof.
  intros Hchk Hst Hcm Hd.
  enter_main Hchk nmcli. rewrite Hst, Hcm.
  cbn [String.eqb Ascii.eqb Bool.eqb world calls]. rewrite Hd.
  destruct (existsb _ _) eqn:E; cbn [world calls negb]; [reflexivity|].
  rewrite Hd. cbn [world calls]. rewrite E. reflexivity.
Qed.

(** X3. When a bus call of [list_connection_info] raises, a run with state
    absent or present dies of the exception before any Executor call: the
    failure message of the handler ("Unable to read Network Manager
    settings ...") is never reported. *)
Theorem discovery_failure_stops_the_run m w e :
  checks_pass (Nmcli_init m) = true ->
  state (Nmcli_init m) = "absent" \/ state (Nmcli_init m) = "present" ->
  dbus_settings w = inl e ->
  run true true run_command dbus_settings m w
  = (traceback e, {| world := w; calls := [] |}).
Proof.
  intros Hchk Hst Hd.
  enter_main Hchk nmcli.
  destruct Hst as [Hst|Hst]; rewrite Hst;
    cbn [String.eqb Ascii.eqb Bool.eqb world calls]; rewrite Hd; reflexivity.
Qed.

Lemma unknown_type_is self name :
  (forall ty, type self = Some ty -> ~ In ty type_choices) ->
  In name type_choices -> type_is self name = false.
Proof.
  intros H Hin. unfold type_is. destruct (type self) as [t|] eqn:E; [|reflexivity].
  destruct (String.eqb t name) eqn:Eq; [|reflexivity].
  apply String.eqb_eq in Eq. subst. destruct (H name eq_refl Hin).
Qed.

Ltac unknown_types H :=
  rewrite !(unknown_type_is _ _ H) by (cbn; tauto).

(** X4. With state present, the name not found and no type among the
    choices (outside check mode), the run fails with the 'create' type
    message and makes no Executor call. *)
Theorem create_without_type_fails m w :
  checks_pass (Nmcli_init m) = true ->
  state (Nmcli_init m) = "present" ->
  check_mode m = false ->
  (forall ty, type (Nmcli_init m) = Some ty -> ~ In ty type_choices) ->
  unlisted dbus_settings (conn_name (Nmcli_init m)) w ->
  run true true run_command dbus_settings m w
  = (create_type_error, {| world := w; calls := [] |}).
Proof.
  intros Hchk Hst Hcm Hty (configs & Hd & Hex).
  enter_main Hchk nmcli. rewrite Hst, Hcm.
  cbn [String.eqb Ascii.eqb Bool.eqb world calls]. rewrite Hd, Hex.
  cbn [world calls negb]. rewrite Hd. cbn [world calls]. rewrite Hex. cbn [negb].
  unfold create_connection, bind, ret, halt. unknown_types Hty. reflexivity.
Qed.

(** X5. With state present, the name found and no type among the choices
    (outside check mode), the run fails with the 'modify' type message and
    makes no Executor call. *)
Theorem modify_without_type_fails m w :
  checks_pass (Nmcli_init m) = true ->
  state (Nmcli_init m) = "present" ->
  check_mode m = false ->
  (forall ty, type (Nmcli_init m) = Some ty -> ~ In ty type_choices) ->
  listed dbus_settings (conn_name (Nmcli_init m)) w ->
  run true true run_command dbus_settings m w
  = (modify_type_error, {| world := w; calls := [] |}).
Proof.
  intros Hchk Hst Hcm Hty (configs & Hd & Hex).
  enter_main Hchk nmcli. rewrite Hst, Hcm.
  cbn [String.eqb Ascii.eqb Bool.eqb world calls]. rewrite Hd, Hex.
  cbn [world calls negb].
  unfold modify_connection, modify_command, bind, ret, halt. unknown_types Hty. reflexivity.
Qed.

(** X6. With state present and the name not found (outside check mode), the
    report is decided by the result [create_connection] returns: exit code 0
    gives [changed=true] with the note of the addition and that result's
    output, any other exit code a failure carrying the name, that code and
    its stderr. *)
Theorem create_result_decides m w code out1 err1 s' :
  checks_pass (Nmcli_init m) = true ->
  state (Nmcli_init m) = "present" ->
  check_mode m = false ->
  unlisted dbus_settings (conn_name (Nmcli_init m)) w ->
  create_connection run_command (Nmcli_init m) {| world := w; calls := [] |}
  = (Next (code, out1, err1), s') ->
  run true true run_command dbus_settings m w
  = (present_outcome (Nmcli_init m) None (Some (connection_note (Nmcli_init m)))
       (code, out1, err1), s').
Proof.
  intros Hchk Hst Hcm (configs & Hd & Hex) Hcreate.
  enter_main Hchk nmcli. rewrite Hst, Hcm.
  cbn [String.eqb Ascii.eqb Bool.eqb world calls]. rewrite Hd, Hex.
  cbn [world calls negb]. rewrite Hd. cbn [world calls]. rewrite Hex. cbn [negb].
  rewrite Hcreate. unfold present_outcome, connection_note.
  destruct code; cbn -[String.append]; rewrite ?Hst; reflexivity.
Qed.

Lemma activating_cases self :
  activating self = true ->
  (type self = Some "team" /\ dns_set self = true)
  \/ (type self = Some "bond" /\ mtu_or_dns_set self = true)
  \/ (type self = Some "ethernet" /\ mtu_or_dns_set self = true).
Proof.
  unfold activating. intros H.
  apply orb_true_iff in H as [H|H]; [apply orb_true_iff in H as [H|H]|];
    apply andb_true_iff in H as [Hty Hc]; apply type_is_true in Hty; auto.
Qed.

(** X7. A create of a team connection with DNS, or of a bond or ethernet
    connection with MTU or DNS, runs the create list, the modify list and
    [con up] whatever each of them returns, then hands the tuple the
    activation returned to [execute_command], which [module.run_command]
    refuses: the create ends the run in the failure with rc 257, after the
    three calls were made and even when all three exited with code 0. *)
Theorem activating_create_is_refused self (s : Machine World) r1 w1 r2 w2 r3 w3 :
  activating self = true ->
  run_command (Argv (create_command self)) (world s) = (r1, w1) ->
  run_command (Argv (modify_command self)) w1 = (r2, w2) ->
  run_command (Argv (up_command self)) w2 = (r3, w3) ->
  create_connection run_command self s
  = (Halt refused_command,
     {| world := w3;
        calls := calls s ++ [Argv (create_command self); Argv (modify_command self);
                             Argv (up_command self); Returned r3] |}).
Proof.
  intros Hact. apply activating_cases in Hact.
  unfold create_connection, create_command, modify_command, type_is,
    dns_set, mtu_or_dns_set in *.
  destruct Hact as [[Hty Hc]|[[Hty Hc]|[Hty Hc]]]; rewrite Hty;
    cbn [String.eqb Ascii.eqb Bool.eqb]; rewrite Hc;
    intros H1 H2 H3;
    unfold bind, up_connection, execute_command, ret;
    rewrite H1; cbn [world calls]; rewrite H2; cbn [world calls];
    rewrite H3; cbn [world calls truthy_command];
    rewrite <- !app_assoc; reflexivity.
Qed.

(** X8. A create of a team-slave with an MTU makes three Executor calls
    whatever the first two return: the create list and the modify list
    twice; its result is that of the second modify call. *)
Theorem team_slave_modifies_twice self (s : Machine World) r1 w1 r2 w2 r3 w3 :
  type self = Some "team-slave" ->
  mtu self <> None ->
  run_command (Argv (create_command self)) (world s) = (r1, w1) ->
  run_command (Argv (modify_command self)) w1 = (r2, w2) ->
  run_command (Argv (modify_command self)) w2 = (r3, w3) ->
  create_connection run_command self s
  = (Next r3,
     {| world := w3;
        calls := calls s ++ [Argv (create_command self); Argv (modify_command self);
                             Argv (modify_command self)] |}).
Proof.
  intros Hty Hmtu.
  unfold create_connection, create_command, modify_command, type_is. rewrite Hty.
  cbn [String.eqb Ascii.eqb Bool.eqb].
  destruct (mtu self) eqn:Em; [clear Hmtu|congruence]. cbn [is_not_None].
  intros H1 H2 H3.
  unfold bind, execute_command, ret.
  rewrite H1; cbn [world calls]; rewrite H2; cbn [world calls].
  assert (Ht : truthy_command (Argv (modify_connection_team_slave self)) = true)
    by reflexivity.
  rewrite Ht. cbn [world calls]. rewrite H3, <- !app_assoc. reflexivity.
Qed.

(** X9. With state present and the name found (outside check mode, a type
    given), a modify call that exits with a non-zero code, the name still
    being listed afterwards, ends the run in a failure carrying the name,
    that exit code and the call's stderr; it is the only call. *)
Theorem failed_modify_is_reported m w code out1 err1 w1 :
  checks_pass (Nmcli_init m) = true ->
  state (Nmcli_init m) = "present" ->
  check_mode m = false ->
  modify_command (Nmcli_init m) <> [] ->
  listed dbus_settings (conn_name (Nmcli_init m)) w ->
  run_command (Argv (modify_command (Nmcli_init m))) w = ((code, out1, err1), w1) ->
  code <> 0%Z ->
  listed dbus_settings (conn_name (Nmcli_init m)) w1 ->
  run true true run_command dbus_settings m w
  = (fail_json {| f_msg := err1; f_name := conn_name (Nmcli_init m);
                  f_rc := Some code; f_details := None |},
     {| world := w1; calls := [Argv (modify_command (Nmcli_init m))] |}).
Proof.
  intros Hchk Hst Hcm Hty (configs & Hd & Hex) Hrun Hcode (configs1 & Hd1 & Hex1).
  enter_main Hchk nmcli.
  assert (Htruthy : truthy_command (Argv (modify_command nmcli)) = true).
  { destruct (modify_command nmcli); [congruence|reflexivity]. }
  unfold modify_connection, execute_command. rewrite Hst, Hcm, Htruthy.
  cbn [String.eqb Ascii.eqb Bool.eqb world calls]. rewrite Hd, Hex.
  cbn [world calls app]. rewrite Hrun. cbn [world calls app]. rewrite Hd1, Hex1.
  destruct code; [congruence| |]; reflexivity.
Qed.

(** X10. The two tests of the present branch are made one after the other,
    each on a fresh reading of the inventory: when the name is found, the
    modify call is made, and the name is no longer found afterwards, the same
    run goes on to create the connection, whatever the modify call returned;
    the report is decided by the result of the create and carries both
    notes. *)
Theorem modify_then_create m w r1 w1 code out2 err2 s' :
  checks_pass (Nmcli_init m) = true ->
  state (Nmcli_init m) = "present" ->
  check_mode m = false ->
  modify_command (Nmcli_init m) <> [] ->
  listed dbus_settings (conn_name (Nmcli_init m)) w ->
  run_command (Argv (modify_command (Nmcli_init m))) w = (r1, w1) ->
  unlisted dbus_settings (conn_name (Nmcli_init m)) w1 ->
  create_connection run_command (Nmcli_init m)
    {| world := w1; calls := [Argv (modify_command (Nmcli_init m))] |}
  = (Next (code, out2, err2), s') ->
  run true true run_command dbus_settings m w
  = (present_outcome (Nmcli_init m) (Some exists_note)
       (Some (connection_note (Nmcli_init m))) (code, out2, err2), s').
Proof.
  intros Hchk Hst Hcm Hty (configs & Hd & Hex) Hrun (configs1 & Hd1 & Hex1) Hcreate.
  enter_main Hchk nmcli.
  assert (Htruthy : truthy_command (Argv (modify_command nmcli)) = true).
  { destruct (modify_command nmcli); [congruence|reflexivity]. }
  unfold modify_connection, execute_command. rewrite Hst, Hcm, Htruthy.
  cbn [String.eqb Ascii.eqb Bool.eqb world calls]. rewrite Hd, Hex.
  cbn [world calls app]. rewrite Hrun. cbn [world calls app]. rewrite Hd1, Hex1.
  cbn [negb]. destruct r1 as [[rc1 out1] err1].
  cbn [assign set_Connection set_Exists rc out err result].
  rewrite Hcreate. unfold present_outcome, connection_note, exists_note.
  destruct code; cbn -[String.append]; rewrite ?Hst; reflexivity.
Qed.

(** X11. A team-slave is refused before the inventory is read and before
    any Executor call when it has no master, and when it has a master but no
    interface name, each with its own message - whatever the state and the
    mode. *)
Theorem team_slave_needs_master_and_ifname m w :
  conn_name (Nmcli_init m) <> None ->
  type (Nmcli_init m) = Some "team-slave" ->
  (master (Nmcli_init m) = None ->
   run true true run_command dbus_settings m w
   = (fail_json (failure "Please specify a name for the master"),
      {| world := w; calls := [] |}))
  /\ (master (Nmcli_init m) <> None -> ifname (Nmcli_init m) = None ->
      run true true run_command dbus_settings m w
      = (fail_json (failure "Please specify an interface name for the connection"),
         {| world := w; calls := [] |})).
Proof.
  intros Hn Hty. unfold run, main. cbn zeta.
  remember (Nmcli_init m) as nmcli eqn:En. clear En.
  unfold when_, ret, halt, bind, type_is. rewrite Hty.
  destruct (conn_name nmcli); [|congruence].
  split.
  - intros ->. reflexivity.
  - intros Hm ->. destruct (master nmcli); [reflexivity|congruence].
Qed.

(** X12. Once the inventory could be read, the existence check returns
    without changing anything, and it answers true exactly when the name
    equals the name, the UUID or the type of some record. *)
Theorem connection_exists_iff self n configs (s : Machine World) :
  conn_name self = Some n ->
  dbus_settings (world s) = inr configs ->
  exists found,
    connection_exists dbus_settings self s = (Next found, s)
    /\ (found = true
        <-> exists c, In c configs
                      /\ (n = con_id c \/ n = con_uuid c \/ n = con_type c)).
Proof.
  intros Hn Hd. exists (item_matches n configs). split.
  - unfold connection_exists, bind, list_connection_info, ret.
    rewrite Hd, Hn, existsb_connection_list. reflexivity.
  - unfold item_matches. rewrite existsb_exists. split.
    + intros (c & Hin & H). exists c. split; [assumption|].
      apply orb_true_iff in H as [H|H]; [apply orb_true_iff in H as [H|H]|];
        apply String.eqb_eq in H; auto.
    + intros (c & Hin & H). exists c. split; [assumption|].
      destruct H as [H|[H|H]]; rewrite <- H, String.eqb_refl, ?orb_true_r; reflexivity.
Qed.

(** X13. For the types bridge and vlan nothing is synthesized: the create
    hands the bare nmcli path to the Executor in a single call, and the
    modify list is the bare path as well. *)
Theorem bridge_and_vlan_run_bare_nmcli self w :
  type self = Some "bridge" \/ type self = Some "vlan" ->
  create_calls run_command self w = [Argv [Some (nmcli_bin self)]]
  /\ modify_command self = [Some (nmcli_bin self)].
Proof.
  intros [H|H]; split; pick_type H; cbn; run_calls run_command; reflexivity.
Qed.

End MoreRuns.

Section EmptyList.
Variable World : Type.
Variable run_command : command -> World -> cmd_result * World.

(** X14. An empty dns4 list counts as no list: with no dns6 and no MTU, the
    create of a team, bond or ethernet connection is the single create call,
    and the modify list has no [ipv4.dns] pair. *)
Theorem empty_dns_list_is_unset m w ty :
  type (Nmcli_init m) = Some ty ->
  In ty ["team"; "bond"; "ethernet"] ->
  param_dns4 (params m) = Some [] ->
  param_dns6 (params m) = None ->
  param_mtu (params m) = None ->
  single_phase run_command (Nmcli_init m) w
  /\ no_key (modify_pairs (Nmcli_init m)) "ipv4.dns".
Proof.
  intros Hty Hin H4 H6 Hmtu.
  assert (Hd4 : dns4 (Nmcli_init m) = None) by (cbn; rewrite H4; reflexivity).
  assert (Hd6 : dns6 (Nmcli_init m) = None) by exact H6.
  assert (Hm : mtu (Nmcli_init m) = None) by exact Hmtu.
  split.
  - unfold single_phase. cbn in Hin.
    destruct Hin as [<-|[<-|[<-|[]]]].
    + pose proof (create_calls_team World run_command _ w Hty) as H.
      unfold dns_set in H. rewrite Hd4, Hd6 in H. exact H.
    + pose proof (create_calls_bond World run_command _ w Hty) as H.
      unfold mtu_or_dns_set in H. rewrite Hd4, Hd6, Hm in H. exact H.
    + pose proof (create_calls_ethernet World run_command _ w Hty) as H.
      unfold mtu_or_dns_set in H. rewrite Hd4, Hd6, Hm in H. exact H.
  - intros v Hv.
    assert (Hr : renders (modify_pairs (Nmcli_init m)) "ipv4.dns" (dns4 (Nmcli_init m))).
    { apply (modify_renders _ ty "ipv4.dns" dns4 Hty).
      cbn in Hin. destruct Hin as [<-|[<-|[<-|[]]]]; cbn; tauto. }
    apply Hr in Hv. destruct Hv as (x & E & _). rewrite Hd4 in E. discriminate E.
Qed.
End EmptyList.

(** ** Synthesized lists *)

(** X15. The create list and the modify list are empty exactly when the
    type is none of the eight choices (a missing type included): these are
    the cases in which [create_connection] and [modify_connection] report
    the missing type. *)
Theorem command_lists_by_type self :
  (create_command self <> [] <-> known_type self)
  /\ (modify_command self <> [] <-> known_type self).
Proof.
  unfold known_type, create_command, modify_command, type_is, type_choices.
  destruct (type self) as [t|].
  - destruct (String.eqb t "team") eqn:E1;
      [|destruct (String.eqb t "team-slave") eqn:E2;
        [|destruct (String.eqb t "bond") eqn:E3;
          [|destruct (String.eqb t "bond-slave") eqn:E4;
            [|destruct (String.eqb t "ethernet") eqn:E5;
              [|destruct (String.eqb t "bridge") eqn:E6;
                [|destruct (String.eqb t "vlan") eqn:E7;
                  [|destruct (String.eqb t "generic") eqn:E8]]]]]]].
    all: try match goal with
             | E : String.eqb ?x _ = true |- _ => apply String.eqb_eq in E; subst x
             end.
    1-8: split; (split; [intros _; eexists; split; [reflexivity|cbn; tauto]
                        |intros _; discriminate]).
    apply String.eqb_neq in E1, E2, E3, E4, E5, E6, E7, E8.
    split; (split; [intros H; congruence|]).
    all: intros (ty & Hty & Hin); injection Hty as <-; cbn in Hin;
      decompose [or] Hin; congruence.
  - split; (split; [intros H; congruence|intros (ty & Hty & _); discriminate]).
Qed.

(** X16. With a name given, the create list of a team, team-slave, bond,
    bond-slave, ethernet or generic connection starts, after the binary and
    the two command words, with the pairs [type] and the type, [con-name]
    and the name, [ifname] and the interface name - the name itself when no
    interface name is given. *)
Theorem create_list_header self ty n :
  type self = Some ty ->
  In ty ["team"; "team-slave"; "bond"; "bond-slave"; "ethernet"; "generic"] ->
  conn_name self = Some n ->
  firstn 3 (create_pairs self)
  = [(Some "type", Some ty); (Some "con-name", Some n);
     (Some "ifname", Some (ifname_or self n))].
Proof.
  intros Hty Hin Hn. cbn in Hin.
  unfold create_pairs, create_command, type_is, ifname_or. rewrite Hty.
  decompose [or] Hin; try contradiction; subst ty;
    cbn [String.eqb Ascii.eqb Bool.eqb];
    unfold create_connection_team, create_connection_team_slave, create_connection_bond,
      create_connection_bond_slave, create_connection_ethernet,
      con_name_value, ifname_value;
    rewrite ?Hty, Hn; cbn [String.eqb Ascii.eqb Bool.eqb];
    destruct (ifname self); reflexivity.
Qed.

(** Splits a membership in a synthesized list into its blocks and closes
    the blocks that cannot hold [None]. *)
Ltac no_None_in H :=
  repeat (apply in_app_or in H; destruct H as [H|H]);
  unfold when_set, autoconnect_pair, con_name_value, ifname_value in H;
  repeat match type of H with
         | context [match ?x with _ => _ end] => destruct x eqn:?
         end;
  cbn in H; intuition (try discriminate; try congruence).

(** X17. With a name given, no token of the create list of a team, ethernet
    or generic connection is [None], and none of the modify list of a team,
    bond, ethernet or generic connection: every attribute is appended under
    its own guard. *)
Theorem address_lists_have_no_None self ty :
  conn_name self <> None ->
  type self = Some ty ->
  (In ty ["team"; "ethernet"; "generic"] -> ~ In None (create_command self))
  /\ (In ty ["team"; "bond"; "ethernet"; "generic"] -> ~ In None (modify_command self)).
Proof.
  intros Hn Hty. unfold create_command, modify_command, type_is. rewrite Hty.
  destruct (conn_name self) as [n|] eqn:En; [clear Hn|congruence].
  split; intros Hin H; cbn in Hin; decompose [or] Hin; try contradiction; subst ty;
    cbn [String.eqb Ascii.eqb Bool.eqb] in H;
    unfold create_connection_team, create_connection_ethernet, modify_connection_team,
      modify_connection_bond, modify_connection_ethernet in H;
    cbn [String.eqb Ascii.eqb Bool.eqb] in H;
    unfold con_name_value, ifname_value in H; rewrite ?En in H;
    no_None_in H.
Qed.

(** X18. With a name given, the create list of a bond holds a [None] token
    exactly when the down delay is set and the up delay, the ARP interval or
    the ARP IP target is not: the blocks of these three attributes test the
    down delay. *)
Theorem bond_create_None_token self :
  conn_name self <> None ->
  (In None (create_connection_bond self) <-> bond_guard_gap self = true).
Proof.
  intros Hn. unfold bond_guard_gap, is_None.
  destruct (conn_name self) as [n|] eqn:En; [clear Hn|congruence]. split.
  - intros H. unfold create_connection_bond, con_name_value, ifname_value in H.
    rewrite ?En in H.
    repeat (apply in_app_or in H; destruct H as [H|H]).
    all: unfold when_set, autoconnect_pair, con_name_value, ifname_value in H.
    all: repeat match type of H with
           | context [match ?x with _ => _ end] => destruct x eqn:?
           end.
    all: cbn in H; try solve [intuition (try discriminate; try congruence)].
    all: destruct H as [H|[H|[]]]; try discriminate H; rewrite H; cbn;
      rewrite ?orb_true_r; reflexivity.
  - intros H. apply andb_true_iff in H as [Hd H].
    unfold create_connection_bond. rewrite !in_app_iff.
    destruct (downdelay self) as [d|]; [clear Hd|discriminate Hd]. cbn [when_set].
    destruct (updelay self); [|cbn; tauto].
    destruct (arp_interval self); [|cbn; tauto].
    destruct (arp_ip_target self); [discriminate H|cbn; tauto].
Qed.

(** ** Secrets and rendering of settings *)

Lemma getitem_setitem_same {V} k (v : V) d :
  Settings.getitem k (Settings.setitem k v d) = Some v.
Proof.
  induction d as [|[k' v'] d IH]; cbn.
  - rewrite String.eqb_refl. reflexivity.
  - destruct (String.eqb k k') eqn:E; cbn; rewrite E; [reflexivity|exact IH].
Qed.

Lemma getitem_setitem_other {V} k k' (v : V) d :
  k' <> k -> Settings.getitem k' (Settings.setitem k v d) = Settings.getitem k' d.
Proof.
  intros Hk. induction d as [|[k0 v0] d IH]; cbn.
  - apply String.eqb_neq in Hk. rewrite Hk. reflexivity.
  - destruct (String.eqb k k0) eqn:E; cbn.
    + apply String.eqb_eq in E. subst k0.
      apply String.eqb_neq in Hk. rewrite Hk. reflexivity.
    + destruct (String.eqb k' k0); [reflexivity|exact IH].
Qed.

Lemma setitem_setitem {V} k (u v : V) d :
  Settings.setitem k v (Settings.setitem k u d) = Settings.setitem k v d.
Proof.
  induction d as [|[k0 v0] d IH]; cbn.
  - rewrite String.eqb_refl. reflexivity.
  - destruct (String.eqb k k0) eqn:E; cbn; rewrite E; [reflexivity|].
    f_equal. exact IH.
Qed.

(** With the group there, the loops never raise: all values are assigned. *)
Lemma assign_secrets_group name entries config group :
  Settings.getitem name config = Some group ->
  Settings.assign_secrets name entries config
  = Settings.setitem name (Settings.assign_all entries group) config
  \/ entries = [] /\ Settings.assign_secrets name entries config = config.
Proof.
  revert config group. induction entries as [|[k v] entries IH]; intros config group Hg.
  - right. split; reflexivity.
  - left. cbn. unfold Settings.assign_secret. rewrite Hg.
    assert (Hg' : Settings.getitem name
                    (Settings.setitem name (Settings.setitem k v group) config)
                  = Some (Settings.setitem k v group)) by apply getitem_setitem_same.
    destruct (IH _ _ Hg') as [E|[-> E]]; rewrite E.
    + apply setitem_setitem.
    + reflexivity.
Qed.

Lemma assign_secrets_missing name entries config :
  Settings.getitem name config = None ->
  Settings.assign_secrets name entries config = config.
Proof.
  intros Hg. destruct entries as [|[k v] entries]; [reflexivity|].
  cbn. unfold Settings.assign_secret. rewrite Hg. reflexivity.
Qed.

Lemma assign_secrets_getitem name entries config group :
  Settings.getitem name config = Some group ->
  Settings.getitem name (Settings.assign_secrets name entries config)
  = Some (Settings.assign_all entries group).
Proof.
  intros Hg. destruct (assign_secrets_group name entries config group Hg) as [E|[-> E]];
    rewrite E; [apply getitem_setitem_same|exact Hg].
Qed.

Lemma assign_secrets_other name entries config g :
  g <> name ->
  Settings.getitem g (Settings.assign_secrets name entries config)
  = Settings.getitem g config.
Proof.
  intros Hne. destruct (Settings.getitem name config) as [group|] eqn:Hg.
  - destruct (assign_secrets_group name entries config group Hg) as [E|[_ E]];
      rewrite E; [apply getitem_setitem_other; assumption|reflexivity].
  - rewrite assign_secrets_missing by assumption. reflexivity.
Qed.

Lemma assign_all_other entries group k :
  ~ In k (map fst entries) ->
  Settings.getitem k (Settings.assign_all entries group) = Settings.getitem k group.
Proof.
  unfold Settings.assign_all. revert group.
  induction entries as [|[k0 v0] entries IH]; intros group Hk; [reflexivity|].
  cbn in *. rewrite IH by tauto. apply getitem_setitem_other. intros ->. tauto.
Qed.

Lemma assign_all_last pre k v post group :
  ~ In k (map fst post) ->
  Settings.getitem k (Settings.assign_all (pre ++ (k, v) :: post) group) = Some v.
Proof.
  intros Hk. unfold Settings.assign_all. rewrite fold_left_app. cbn [fold_left fst snd].
  match goal with
  | |- Settings.getitem k (fold_left ?f post ?g) = _ =>
      change (fold_left f post g) with (Settings.assign_all post g)
  end.
  rewrite assign_all_other by assumption. apply getitem_setitem_same.
Qed.

Section SecretsFacts.
Variable GetSecrets : string -> option (Settings.dict (Settings.dict Settings.value)).

(** X19. A merge that cannot be made is swallowed and changes nothing: when
    [GetSecrets] raises, or the config has no group of the name asked for. *)
Theorem merge_secrets_swallows_failure config name :
  GetSecrets name = None \/ Settings.getitem name config = None ->
  Settings.merge_secrets GetSecrets config name = config.
Proof.
  unfold Settings.merge_secrets. intros [H|H].
  - rewrite H. reflexivity.
  - destruct (GetSecrets name); [apply assign_secrets_missing; assumption|reflexivity].
Qed.

(** X20. A merge touches the named group only: every other group of the
    config reads as before. *)
Theorem merge_secrets_other_groups config name g :
  g <> name ->
  Settings.getitem g (Settings.merge_secrets GetSecrets config name)
  = Settings.getitem g config.
Proof.
  intros Hne. unfold Settings.merge_secrets.
  destruct (GetSecrets name); [apply assign_secrets_other; assumption|reflexivity].
Qed.

(** X21. After a merge into an existing group, that group holds, for every
    key of the reply - under whatever setting of the reply it came - the
    value of the key's last occurrence, and its other keys as before. *)
Theorem merge_secrets_values config name group secrets :
  Settings.getitem name config = Some group ->
  GetSecrets name = Some secrets ->
  exists merged,
    Settings.getitem name (Settings.merge_secrets GetSecrets config name) = Some merged
    /\ (forall k, ~ In k (map fst (flat_map snd secrets)) ->
                  Settings.getitem k merged = Settings.getitem k group)
    /\ (forall pre k v post,
          flat_map snd secrets = pre ++ (k, v) :: post ->
          ~ In k (map fst post) -> Settings.getitem k merged = Some v).
Proof.
  intros Hg Hs. exists (Settings.assign_all (flat_map snd secrets) group).
  unfold Settings.merge_secrets. rewrite Hs. split; [|split].
  - apply assign_secrets_getitem. assumption.
  - intros k Hk. apply assign_all_other. assumption.
  - intros pre k v post -> Hk. apply assign_all_last. assumption.
Qed.

Lemma merged_connection_group config :
  Settings.getitem "connection"
    (fold_left (Settings.merge_secrets GetSecrets) Settings.secret_settings config)
  = Settings.getitem "connection" config.
Proof.
  unfold Settings.secret_settings. cbn [fold_left].
  rewrite !merge_secrets_other_groups by discriminate. reflexivity.
Qed.

(** X22. The name, UUID and type listed for a connection are those
    [GetSettings] returned, whatever [GetSecrets] replies: none of the six
    merges reaches the ['connection'] group; and the connection is listed
    exactly when that group and its three keys are there. *)
Theorem secrets_keep_identity config :
  option_map (fun items => fst items) (Settings.connection_items GetSecrets config)
  = match Settings.getitem "connection" config with
    | Some s_con =>
        match Settings.getitem "id" s_con, Settings.getitem "uuid" s_con,
              Settings.getitem "type" s_con with
        | Some id, Some uuid, Some ty => Some (id, uuid, ty)
        | _, _, _ => None
        end
    | None => None
    end.
Proof.
  unfold Settings.connection_items. rewrite merged_connection_group.
  destruct (Settings.getitem "connection" config) as [s_con|]; [|reflexivity].
  destruct (Settings.getitem "id" s_con), (Settings.getitem "uuid" s_con),
    (Settings.getitem "type" s_con); reflexivity.
Qed.
End SecretsFacts.

Lemma entry_of_dictionary key d :
  Settings.entry_to_string key (Settings.Dictionary d) = Settings.dict_to_string d.
Proof.
  cbn. induction d as [|[k v] d IH]; [reflexivity|]. cbn. rewrite IH. reflexivity.
Qed.

Lemma append_assoc (a b c : string) : ((a ++ b) ++ c = a ++ (b ++ c))%string.
Proof. induction a as [|x a IH]; [reflexivity|]. cbn. rewrite IH. reflexivity. Qed.

Lemma dict_to_string_app d1 d2 :
  Settings.dict_to_string (d1 ++ d2)
  = (Settings.dict_to_string d1 ++ Settings.dict_to_string d2)%string.
Proof.
  induction d1 as [|[k v] d1 IH]; [reflexivity|].
  cbn [app Settings.dict_to_string]. rewrite IH, append_assoc. reflexivity.
Qed.

(** X23. A nested dictionary is rendered as its own entries in its place,
    at any depth; its key is not printed. *)
Theorem nested_dictionary_is_inlined pre key d post :
  Settings.dict_to_string (pre ++ (key, Settings.Dictionary d) :: post)
  = Settings.dict_to_string (pre ++ d ++ post).
Proof.
  rewrite !dict_to_string_app. cbn [Settings.dict_to_string].
  rewrite entry_of_dictionary. reflexivity.
Qed.

(** ** The further properties on concrete inputs *)

Lemma absent_unlisted_is_noop_eth0 :
  run true true Host.run_command Host.dbus_settings
    (Host.ansible Examples.eth0_absent false) (Host.quiet [])
  = (exit_json {| r_conn_name := Some "eth0"; r_state := Some "absent";
                  r_Exists := None; r_Connection := None; r_changed := Some false;
                  r_stdout := None; r_stderr := None |},
     {| world := Host.quiet []; calls := [] |}).
Proof.
  apply (absent_unlisted_is_noop Host.World Host.run_command Host.dbus_settings
           (Host.ansible Examples.eth0_absent false) (Host.quiet [])).
  - reflexivity.
  - reflexivity.
  - exists []. split; reflexivity.
Defined.

Lemma present_check_mode_my_eth1 :
  run true true Host.run_command Host.dbus_settings
    (Host.ansible Examples.my_eth1 true) (Host.quiet [Host.eth0])
  = (exit_json changed_only, {| world := Host.quiet [Host.eth0]; calls := [] |}).
Proof.
  apply (present_check_mode_reports_changed Host.World Host.run_command
           Host.dbus_settings (Host.ansible Examples.my_eth1 true)
           (Host.quiet [Host.eth0]) [Host.eth0]); reflexivity.
Defined.

Lemma discovery_failure_my_eth1 :
  run true true Host.run_command MoreExamples.dbus_down
    (Host.ansible Examples.my_eth1 false) (Host.quiet [])
  = (traceback "AttributeError: module 'dbus' has no attribute 'Exceptions'",
     {| world := Host.quiet []; calls := [] |}).
Proof.
  apply (discovery_failure_stops_the_run Host.World Host.run_command
           MoreExamples.dbus_down (Host.ansible Examples.my_eth1 false) (Host.quiet [])).
  - reflexivity.
  - right. reflexivity.
  - reflexivity.
Defined.

Lemma unknown_none (p : Params) :
  param_type p = None ->
  forall ty, type (Nmcli_init (Host.ansible p false)) = Some ty -> ~ In ty type_choices.
Proof. cbn. intros -> ty E. discriminate E. Defined.

Lemma create_without_type_eth9 :
  run true true Host.run_command Host.dbus_settings
    (Host.ansible MoreExamples.untyped_new false) (Host.quiet [Host.eth0])
  = (create_type_error, {| world := Host.quiet [Host.eth0]; calls := [] |}).
Proof.
  apply (create_without_type_fails Host.World Host.run_command Host.dbus_settings
           (Host.ansible MoreExamples.untyped_new false) (Host.quiet [Host.eth0])).
  - reflexivity.
  - reflexivity.
  - reflexivity.
  - apply unknown_none. reflexivity.
  - exists [Host.eth0]. split; reflexivity.
Defined.

Lemma modify_without_type_eth0 :
  run true true Host.run_command Host.dbus_settings
    (Host.ansible MoreExamples.untyped_eth0 false) (Host.quiet [Host.eth0])
  = (modify_type_error, {| world := Host.quiet [Host.eth0]; calls := [] |}).
Proof.
  apply (modify_without_type_fails Host.World Host.run_command Host.dbus_settings
           (Host.ansible MoreExamples.untyped_eth0 false) (Host.quiet [Host.eth0])).
  - reflexivity.
  - reflexivity.
  - reflexivity.
  - apply unknown_none. reflexivity.
  - exists [Host.eth0]. split; reflexivity.
Defined.

(** The create of [my-eth1] exits with code 1: the run fails with it. *)
Lemma create_result_decides_failure :
  run true true Host.run_command Host.dbus_settings
    (Host.ansible Examples.my_eth1 false) Examples.call_fails
  = (fail_json {| f_msg := "Error: failed."; f_name := Some "my-eth1";
                  f_rc := Some 1%Z; f_details := None |},
     {| world := Host.quiet [];
        calls := [Argv (Some "/usr/bin/nmcli" :: Examples.my_eth1_tokens)] |}).
Proof.
  apply (create_result_decides Host.World Host.run_command Host.dbus_settings
           (Host.ansible Examples.my_eth1 false) Examples.call_fails
           1%Z "" "Error: failed."
           {| world := Host.quiet [];
              calls := [Argv (Some "/usr/bin/nmcli" :: Examples.my_eth1_tokens)] |}).
  - reflexivity.
  - reflexivity.
  - reflexivity.
  - exists []. split; reflexivity.
  - reflexivity.
Defined.

(** The create step of [my-eth1] with DNS servers exits with code 4; the
    modify step and the activation follow, and the tuple is refused. *)
Lemma activating_create_is_refused_my_eth1_dns :
  create_connection Host.run_command (Examples.nmcli_of Examples.my_eth1_dns)
    (Examples.start MoreExamples.create_step_fails)
  = (Halt refused_command,
     {| world := {| Host.inventory := []; Host.replies := [(0%Z, "done", "")] |};
        calls := [Argv (create_command (Examples.nmcli_of Examples.my_eth1_dns));
                  Argv (modify_command (Examples.nmcli_of Examples.my_eth1_dns));
                  Argv (up_command (Examples.nmcli_of Examples.my_eth1_dns));
                  Returned (0%Z, "", "")] |}).
Proof.
  apply (activating_create_is_refused Host.World Host.run_command
           (Examples.nmcli_of Examples.my_eth1_dns)
           (Examples.start MoreExamples.create_step_fails)
           (4%Z, "", "Error: Failed to add 'my-eth1' connection.")
           {| Host.inventory := [];
              Host.replies := [(0%Z, "", ""); (0%Z, "", ""); (0%Z, "done", "")] |}
           (0%Z, "", "")
           {| Host.inventory := []; Host.replies := [(0%Z, "", ""); (0%Z, "done", "")] |}
           (0%Z, "", "")
           {| Host.inventory := []; Host.replies := [(0%Z, "done", "")] |}); reflexivity.
Defined.

Lemma team_slave_modifies_twice_team_em1 :
  create_connection Host.run_command (Examples.nmcli_of Examples.team_slave_mtu)
    (Examples.start (Host.quiet []))
  = (Next (0%Z, "", ""),
     {| world := Host.quiet [];
        calls := [Argv (create_command (Examples.nmcli_of Examples.team_slave_mtu));
                  Argv (modify_command (Examples.nmcli_of Examples.team_slave_mtu));
                  Argv (modify_command (Examples.nmcli_of Examples.team_slave_mtu))] |}).
Proof.
  apply (team_slave_modifies_twice Host.World Host.run_command
           (Examples.nmcli_of Examples.team_slave_mtu) (Examples.start (Host.quiet []))
           (0%Z, "", "") (Host.quiet []) (0%Z, "", "") (Host.quiet [])
           (0%Z, "", "") (Host.quiet [])).
  - reflexivity.
  - discriminate.
  - reflexivity.
  - reflexivity.
  - reflexivity.
Defined.

Lemma failed_modify_is_reported_eth0 :
  run true true Host.run_command Host.dbus_settings
    (Host.ansible Examples.eth0_present false) MoreExamples.modify_fails
  = (fail_json {| f_msg := "Error: unknown connection 'eth0'."; f_name := Some "eth0";
                  f_rc := Some 10%Z; f_details := None |},
     {| world := Host.quiet [Host.eth0];
        calls := [Argv (modify_command (Examples.nmcli_of Examples.eth0_present))] |}).
Proof.
  apply (failed_modify_is_reported Host.World Host.run_command Host.dbus_settings
           (Host.ansible Examples.eth0_present false) MoreExamples.modify_fails
           10%Z "" "Error: unknown connection 'eth0'." (Host.quiet [Host.eth0])).
  - reflexivity.
  - reflexivity.
  - reflexivity.
  - discriminate.
  - exists [Host.eth0]. split; reflexivity.
  - reflexivity.
  - discriminate.
  - exists [Host.eth0]. split; reflexivity.
Defined.

(** On a host whose inventory is empty after any call, [eth0] is modified
    and then created in the same run. *)
Lemma modify_then_create_eth0 :
  run true true MoreExamples.run_and_drop Host.dbus_settings
    (Host.ansible Examples.eth0_present false) (Host.quiet [Host.eth0])
  = (present_outcome (Examples.nmcli_of Examples.eth0_present) (Some exists_note)
       (Some (connection_note (Examples.nmcli_of Examples.eth0_present)))
       (0%Z, "", ""),
     {| world := Host.quiet [];
        calls := [Argv (modify_command (Examples.nmcli_of Examples.eth0_present));
                  Argv (create_command (Examples.nmcli_of Examples.eth0_present))] |}).
Proof.
  apply (modify_then_create Host.World MoreExamples.run_and_drop Host.dbus_settings
           (Host.ansible Examples.eth0_present false) (Host.quiet [Host.eth0])
           (0%Z, "", "") (Host.quiet [])).
  - reflexivity.
  - reflexivity.
  - reflexivity.
  - discriminate.
  - exists [Host.eth0]. split; reflexivity.
  - reflexivity.
  - exists []. split; reflexivity.
  - reflexivity.
Defined.

Lemma team_slave_refused_twice :
  run true true Host.run_command Host.dbus_settings
    (Host.ansible Examples.team_slave_no_master false) (Host.quiet [])
  = (fail_json (failure "Please specify a name for the master"),
     {| world := Host.quiet []; calls := [] |})
  /\ run true true Host.run_command Host.dbus_settings
       (Host.ansible MoreExamples.team_slave_no_ifname false) (Host.quiet [])
     = (fail_json (failure "Please specify an interface name for the connection"),
        {| world := Host.quiet []; calls := [] |}).
Proof.
  split.
  - apply (team_slave_needs_master_and_ifname Host.World Host.run_command
             Host.dbus_settings (Host.ansible Examples.team_slave_no_master false)
             (Host.quiet [])); [discriminate|reflexivity|reflexivity].
  - apply (team_slave_needs_master_and_ifname Host.World Host.run_command
             Host.dbus_settings (Host.ansible MoreExamples.team_slave_no_ifname false)
             (Host.quiet [])); [discriminate|reflexivity|discriminate|reflexivity].
Defined.

(** [eth0] is found by its name and by its UUID. *)
Lemma connection_exists_iff_eth0 :
  exists found,
    connection_exists Host.dbus_settings (Examples.nmcli_of Examples.eth0_present)
      (Examples.start (Host.quiet [Host.eth0]))
    = (Next found, Examples.start (Host.quiet [Host.eth0]))
    /\ (found = true
        <-> exists c, In c [Host.eth0]
                      /\ ("eth0" = con_id c \/ "eth0" = con_uuid c \/ "eth0" = con_type c)).
Proof.
  apply (connection_exists_iff Host.World Host.dbus_settings
           (Examples.nmcli_of Examples.eth0_present) "eth0" [Host.eth0]
           (Examples.start (Host.quiet [Host.eth0]))); reflexivity.
Defined.

Lemma bridge_runs_bare_nmcli :
  create_calls Host.run_command (Examples.nmcli_of MoreExamples.bridge0) (Host.quiet [])
  = [Argv [Some "/usr/bin/nmcli"]]
  /\ modify_command (Examples.nmcli_of MoreExamples.bridge0) = [Some "/usr/bin/nmcli"].
Proof.
  apply (bridge_and_vlan_run_bare_nmcli Host.World Host.run_command
           (Examples.nmcli_of MoreExamples.bridge0) (Host.quiet [])).
  left. reflexivity.
Defined.

Lemma empty_dns_list_my_eth1 :
  single_phase Host.run_command (Examples.nmcli_of MoreExamples.eth_empty_dns)
    (Host.quiet [])
  /\ no_key (modify_pairs (Examples.nmcli_of MoreExamples.eth_empty_dns)) "ipv4.dns".
Proof.
  apply (empty_dns_list_is_unset Host.World Host.run_command
           (Host.ansible MoreExamples.eth_empty_dns false) (Host.quiet []) "ethernet").
  - reflexivity.
  - cbn. tauto.
  - reflexivity.
  - reflexivity.
  - reflexivity.
Defined.

Lemma create_list_header_my_eth1 :
  firstn 3 (create_pairs (Examples.nmcli_of Examples.my_eth1))
  = [(Some "type", Some "ethernet"); (Some "con-name", Some "my-eth1");
     (Some "ifname", Some "my-eth1")].
Proof.
  apply (create_list_header (Examples.nmcli_of Examples.my_eth1) "ethernet" "my-eth1").
  - reflexivity.
  - cbn. tauto.
  - reflexivity.
Defined.

Lemma address_lists_my_eth1_dns :
  ~ In None (create_command (Examples.nmcli_of Examples.my_eth1_dns))
  /\ ~ In None (modify_command (Examples.nmcli_of Examples.my_eth1_dns)).
Proof.
  destruct (address_lists_have_no_None (Examples.nmcli_of Examples.my_eth1_dns)
              "ethernet") as [Hc Hm]; [discriminate|reflexivity|].
  split; [apply Hc|apply Hm]; cbn; tauto.
Defined.

(** The bond with a down delay and no up delay has a [None] token. *)
Lemma bond_create_None_token_bond0 :
  In None (create_connection_bond (Examples.nmcli_of Examples.bond_downdelay)).
Proof.
  apply (bond_create_None_token (Examples.nmcli_of Examples.bond_downdelay)).
  - discriminate.
  - reflexivity.
Defined.

(** No secrets for [gsm], and no group [802-1x] in the settings. *)
Lemma merge_secrets_swallows_failure_wifi :
  Settings.merge_secrets MoreExamples.wifi_secrets MoreExamples.wifi "gsm"
  = MoreExamples.wifi.
Proof.
  apply (merge_secrets_swallows_failure MoreExamples.wifi_secrets MoreExamples.wifi "gsm").
  left. reflexivity.
Defined.

Lemma merge_secrets_other_groups_wifi :
  Settings.getitem "connection"
    (Settings.merge_secrets MoreExamples.wifi_secrets MoreExamples.wifi
       "802-11-wireless-security")
  = Settings.getitem "connection" MoreExamples.wifi.
Proof.
  apply (merge_secrets_other_groups MoreExamples.wifi_secrets MoreExamples.wifi
           "802-11-wireless-security" "connection").
  discriminate.
Defined.

(** The security group of the wireless connection receives the secret. *)
Lemma merge_secrets_values_wifi :
  exists merged,
    Settings.getitem "802-11-wireless-security"
      (Settings.merge_secrets MoreExamples.wifi_secrets MoreExamples.wifi
         "802-11-wireless-security") = Some merged
    /\ Settings.getitem "key-mgmt" merged = Some (Settings.Plain "wpa-psk")
    /\ Settings.getitem "psk" merged = Some (Settings.Plain "hunter2").
Proof.
  destruct (merge_secrets_values MoreExamples.wifi_secrets MoreExamples.wifi
              "802-11-wireless-security"
              [("key-mgmt", Settings.Plain "wpa-psk")]
              [("802-11-wireless-security", [("psk", Settings.Plain "hunter2")])]
              eq_refl eq_refl) as (merged & Hm & Hkeep & Hlast).
  exists merged. split; [exact Hm|]. split.
  - rewrite Hkeep; [reflexivity|]. cbn. intros [E|[]]. discriminate E.
  - apply (Hlast [] "psk" (Settings.Plain "hunter2") []); [reflexivity|]. cbn. tauto.
Defined.
